(** * Video/IMU fusion controller (plugins/videoimufusion/VideoIMUFusion.cpp)

    A shallow embedding of the calibration/fusion controller of the
    video-IMU fusion plugin: the time arithmetic ([secondsElapsed]), the
    calibration accumulator ([StartupData]), the running filter wrapper
    ([RunningData]) and the callback handlers of [VideoIMUFusion].

    Doubles are IEEE-754 binary64 values ([spec_float] with precision 53
    and maximal exponent 1024), so that the tests [dt <= 0] of the source
    are the floating-point comparisons the program executes.  Eigen, the
    one-euro filters and the Kalman filter templates are collaborators
    whose headers are not part of the translated sources; they enter the
    model as interfaces (type classes), and every statement below holds
    for all their implementations. *)

From Stdlib Require Import ZArith List Bool Lia.
From Stdlib Require Import Floats.SpecFloat.
Import ListNotations.
Local Open Scope Z_scope.

(** ** Doubles *)

Module Double.

Definition prec : Z := 53.
Definition emax : Z := 1024.

Definition double : Type := spec_float.

(** Conversion of an integer to double (round to nearest, ties to even). *)
Definition of_Z (z : Z) : double := binary_normalize prec emax z 0 false.

Definition add (x y : double) : double := SFadd prec emax x y.
Definition mul (x y : double) : double := SFmul prec emax x y.
Definition div (x y : double) : double := SFdiv prec emax x y.

(** [x <= y] and [x < y] on doubles; both are false when an operand is NaN. *)
Definition leb (x y : double) : bool := SFleb x y.
Definition ltb (x y : double) : bool := SFltb x y.

Definition zero : double := S754_zero false.
Definition one : double := Eval vm_compute in of_Z 1.
Definition two : double := Eval vm_compute in of_Z 2.
(** The literals [0.5], [1.5], [1.1] and [1000000.0]. *)
Definition half : double := Eval vm_compute in div (of_Z 1) (of_Z 2).
Definition one_and_half : double := Eval vm_compute in div (of_Z 3) (of_Z 2).
Definition one_point_one : double := Eval vm_compute in div (of_Z 11) (of_Z 10).
Definition million : double := Eval vm_compute in of_Z 1000000.

End Double.

Import Double.

(** ** Fixed-width integers *)

(** Two's-complement reading of [z] on [w] bits. *)
Definition wrap_signed (w : Z) (z : Z) : Z :=
  (z + 2 ^ (w - 1)) mod 2 ^ w - 2 ^ (w - 1).

(** [std::size_t] arithmetic (64 bits, unsigned). *)
Definition wrap_size_t (z : Z) : Z := z mod 2 ^ 64.

(** ** Time values *)

(** Modelled from the spec: a timestamp is a pair of a seconds field and a
    microseconds field.  The struct [OSVR_TimeValue] is declared in a
    header outside the translated sources; its seconds are a 64-bit and
    its microseconds a 32-bit signed integer. *)
Record OSVR_TimeValue : Type := mkTimeValue {
  seconds : Z;
  microseconds : Z
}.

(** [OSVR_TimeValue{}] *)
Definition zeroTimeValue : OSVR_TimeValue := mkTimeValue 0 0.

(** [secondsElapsed(earlier, later)]:
    [(later.microseconds - earlier.microseconds) / 1000000.0 +
     (later.seconds - earlier.seconds)].
    The integer differences are taken at the width of the fields, then
    converted to double. *)
Definition secondsElapsed (earlier later : OSVR_TimeValue) : double :=
  add (div (of_Z (wrap_signed 32 (microseconds later - microseconds earlier)))
           million)
      (of_Z (wrap_signed 64 (seconds later - seconds earlier))).

(** ** Plain data of the OSVR C API

    Modelled from the spec: an orientation report carries a quaternion, a
    pose report a translation and a quaternion; the structs are declared
    in headers outside the translated sources. *)

(** Three doubles: [OSVR_Vec3] ([double data[3]]) and [Eigen::Vector3d]. *)
Record Vector3d : Type := mkVec3 { vx : double; vy : double; vz : double }.

(** Four doubles: [Eigen::Matrix<double, 4, 1>]. *)
Record Vector4d : Type := mkVec4 {
  v4_0 : double; v4_1 : double; v4_2 : double; v4_3 : double
}.

Definition coeffs3 (v : Vector3d) : list double := [vx v; vy v; vz v].
Definition coeffs4 (v : Vector4d) : list double :=
  [v4_0 v; v4_1 v; v4_2 v; v4_3 v].

(** [OSVR_Quaternion] ([double data[4]]). *)
Record OSVR_Quaternion : Type := mkQuat {
  q_0 : double; q_1 : double; q_2 : double; q_3 : double
}.

Record OSVR_Pose3 : Type := mkPose3 {
  translation : Vector3d;
  rotation : OSVR_Quaternion
}.

Definition OSVR_OrientationState : Type := OSVR_Quaternion.
Definition OSVR_PoseState : Type := OSVR_Pose3.

Record OSVR_OrientationReport : Type := mkOrientationReport {
  or_sensor : Z;
  or_rotation : OSVR_OrientationState
}.

Record OSVR_PoseReport : Type := mkPoseReport {
  pr_sensor : Z;
  pr_pose : OSVR_PoseState
}.

(** [OSVR_OrientationState{}] and [OSVR_PoseState{}]: value initialisation. *)
Definition zeroOrientationState : OSVR_OrientationState :=
  mkQuat zero zero zero zero.
Definition zeroPoseState : OSVR_PoseState :=
  mkPose3 (mkVec3 zero zero zero) zeroOrientationState.

Definition FUSED_SENSOR_ID : Z := 0.
Definition TRANSFORMED_VIDEO_SENSOR_ID : Z := 1.

(** One call of [osvrDeviceTrackerSendPoseTimestamped]. *)
Record PoseEmission : Type := mkEmission {
  em_pose : OSVR_PoseState;
  em_channel : Z;
  em_timestamp : OSVR_TimeValue
}.

(** What the two client interfaces [m_imu] and [m_videoTracker] hold when a
    callback runs: the latest state of each, if it has one.  The host
    runtime owns and updates them; the controller only reads them. *)
Record ClientInterfaces : Type := mkInterfaces {
  imu_state : option (OSVR_TimeValue * OSVR_OrientationState);
  video_state : option (OSVR_TimeValue * OSVR_PoseState)
}.

(** [osvrGetOrientationState(m_imu, &ts, &state)]: on success the outputs
    are overwritten, on failure they keep what the caller put there. *)
Definition osvrGetOrientationState (ifs : ClientInterfaces)
    (ts : OSVR_TimeValue) (st : OSVR_OrientationState)
    : bool * OSVR_TimeValue * OSVR_OrientationState :=
  match imu_state ifs with
  | Some (ts', st') => (true, ts', st')
  | None => (false, ts, st)
  end.

(** [osvrGetPoseState(m_videoTracker, &ts, &state)]. *)
Definition osvrGetPoseState (ifs : ClientInterfaces)
    (ts : OSVR_TimeValue) (st : OSVR_PoseState)
    : bool * OSVR_TimeValue * OSVR_PoseState :=
  match video_state ifs with
  | Some (ts', st') => (true, ts', st')
  | None => (false, ts, st)
  end.

(** ** Outcomes of a callback *)

(** A callback either runs to completion, or stops the process: on a failed
    [BOOST_ASSERT_MSG] (when assertions are compiled in), or on the
    dereference of an empty [unique_ptr]. *)
Inductive Outcome (A : Type) : Type :=
| Done (a : A)
| AssertionFailed
| NullDereference.

Arguments Done {A} a.
Arguments AssertionFailed {A}.
Arguments NullDereference {A}.

Definition bind {A B : Type} (m : Outcome A) (k : A -> Outcome B)
    : Outcome B :=
  match m with
  | Done a => k a
  | AssertionFailed => AssertionFailed
  | NullDereference => NullDereference
  end.

Notation "x <- m ;; k" := (bind m (fun x => k))
  (at level 61, m at next level, right associativity).

(** [*p] for a [unique_ptr] [p]. *)
Definition deref {A : Type} (p : option A) : Outcome A :=
  match p with
  | Some a => Done a
  | None => NullDereference
  end.

(** [BOOST_ASSERT_MSG(cond, msg)]; [ndebug] tells whether assertions are
    compiled out. *)
Definition BOOST_ASSERT_MSG (ndebug cond : bool) : Outcome unit :=
  if ndebug || cond then Done tt else AssertionFailed.

(** ** Collaborators *)

(** Eigen geometry and the conversions of [osvr/Util/EigenInterop.h]. *)
Class EigenOps : Type := {
  Quaterniond : Type;
  Matrix3d : Type;
  Isometry3d : Type;
  (** [a * b] *)
  iso_mul : Isometry3d -> Isometry3d -> Isometry3d;
  (** [a.inverse()] *)
  iso_inverse : Isometry3d -> Isometry3d;
  (** [Eigen::Isometry3d(q)] *)
  iso_of_quat : Quaterniond -> Isometry3d;
  (** [a.translation()] and [a.rotation()] *)
  iso_translation : Isometry3d -> Vector3d;
  iso_rotation : Isometry3d -> Matrix3d;
  (** [Eigen::Quaterniond(m)] *)
  quat_of_matrix : Matrix3d -> Quaterniond;
  (** [ret.fromPositionOrientationScale(p, q, s)] *)
  fromPositionOrientationScale :
    Vector3d -> Quaterniond -> Vector3d -> Isometry3d;
  fromQuat : OSVR_Quaternion -> Quaterniond;
  toQuat : Quaterniond -> OSVR_Quaternion;
  fromPose : OSVR_Pose3 -> Isometry3d;
  toPose : Isometry3d -> OSVR_Pose3
}.

(** The one-euro filters of [osvr/Util/EigenFilters.h], as used by the
    accumulator: constructed from default parameters, fed with
    [filter(dt, x)] (whose return value the caller drops) and read with
    [getState()]. *)
Class OneEuroOps `{EigenOps} : Type := {
  OneEuroVec : Type;
  OneEuroQuat : Type;
  oneEuroVec_init : OneEuroVec;
  oneEuroQuat_init : OneEuroQuat;
  filterVec : double -> Vector3d -> OneEuroVec -> OneEuroVec;
  filterQuat : double -> Quaterniond -> OneEuroQuat -> OneEuroQuat;
  getStateVec : OneEuroVec -> Vector3d;
  getStateQuat : OneEuroQuat -> Quaterniond
}.

(** ** The Kalman filter as the controller sees it *)

(** Modelled from the spec: the state class of the filter
    ([pose_externalized_rotation::State], declared in a header outside the
    translated sources) holds a 12-entry state vector, a reference
    quaternion kept apart from it, and a 12 x 12 error covariance;
    [setStateVector], [setQuaternion] and [setErrorCovariance] store their
    argument, [stateVector], [getQuaternion] and [errorCovariance] read it
    back. *)
Record FilterState `{EigenOps} : Type := mkFilterState {
  stateVector : list double;
  getQuaternion : Quaterniond;
  errorCovariance : list (list double)
}.

Arguments mkFilterState {_} _ _ _.

(** Modelled from the spec: the process model exposes its
    noise-autocorrelation coefficients as a public member. *)
Record ProcessModel : Type := mkProcessModel {
  noiseAutocorrelation : list double
}.

(** [FlexibleKalmanFilter<ProcessModel>]: one state and one process model. *)
Record Filter `{EigenOps} : Type := mkFilter {
  state : FilterState;
  processModel : ProcessModel
}.

Arguments mkFilter {_} _ _.

(** [AbsoluteOrientationMeasurement meas{quat, covariance}] *)
Record AbsoluteOrientationMeasurement `{EigenOps} : Type := mkOriMeas {
  aom_quat : Quaterniond;
  aom_covariance : list (list double)
}.

Arguments mkOriMeas {_} _ _.

(** [AbsolutePoseMeasurement meas{pos, ori, covariance}] *)
Record AbsolutePoseMeasurement `{EigenOps} : Type := mkPoseMeas {
  apm_pos : Vector3d;
  apm_ori : Quaterniond;
  apm_covariance : list (list double)
}.

Arguments mkPoseMeas {_} _ _ _.

(** What the controller calls on the filter templates: the default
    constructor, [predict(dt)], [correct(meas)] at its two measurement
    types, and the quaternion helpers of [external_quat]. *)
Class KalmanOps `{EigenOps} : Type := {
  defaultFilter : Filter;
  predict : double -> Filter -> Filter;
  correctOrientation : AbsoluteOrientationMeasurement -> Filter -> Filter;
  correctPose : AbsolutePoseMeasurement -> Filter -> Filter;
  vecToQuat : Vector3d -> Quaterniond;
  getVec4 : Quaterniond -> Vector4d
}.

(** *** Vectors and matrices of doubles *)

(** [DimVector<FilterState>::Zero()] at dimension [n]. *)
Definition Zero (n : nat) : list double := repeat zero n.

(** Row [i] of [v.asDiagonal()]: [v_i] at column [i], zero elsewhere. *)
Definition diagonalRow (n i : nat) (x : double) : list double :=
  repeat zero i ++ x :: repeat zero (n - S i).

Fixpoint diagonalRows (n i : nat) (v : list double) : list (list double) :=
  match v with
  | [] => []
  | x :: v' => diagonalRow n i x :: diagonalRows n (S i) v'
  end.

(** [v.asDiagonal()] as a dense square matrix, row by row. *)
Definition asDiagonal (v : list double) : list (list double) :=
  diagonalRows (length v) 0 v.

(** Modelled from the spec: [position(vec)] is the block of three entries
    at the head of the state vector (position, then velocity, incremental
    orientation and angular velocity).  [setPositionBlock p vec] is the
    assignment [position(vec) = p]. *)
Definition setPositionBlock (p : Vector3d) (vec : list double)
    : list double :=
  coeffs3 p ++ skipn 3 vec.

(** [position(vec)] read as a [Vector3d]. *)
Definition positionBlock (vec : list double) : Vector3d :=
  mkVec3 (nth 0 vec zero) (nth 1 vec zero) (nth 2 vec zero).

(** [x *= s] on an Eigen vector: every coefficient is multiplied by [s]. *)
Definition scaleVector (s : double) (x : list double) : list double :=
  map (fun c => mul c s) x.

Definition InitialStateError : list double := repeat one 12.
Definition IMUError : Vector3d := mkVec3 one one_and_half one.
Definition CameraOrientationError : Vector3d :=
  mkVec3 one_point_one one_point_one one_point_one.
Definition CameraPositionError : Vector3d := mkVec3 one one one.

Section Controller.

Context `{E : EigenOps} {O : OneEuroOps} {K : KalmanOps}.

(** Whether [BOOST_ASSERT_MSG] is compiled out. *)
Variable ndebug : bool.

(** *** State setters and getters *)

Definition setStateVector (v : list double) (s : FilterState) : FilterState :=
  mkFilterState v (getQuaternion s) (errorCovariance s).

Definition setQuaternion (q : Quaterniond) (s : FilterState) : FilterState :=
  mkFilterState (stateVector s) q (errorCovariance s).

Definition setErrorCovariance (P : list (list double)) (s : FilterState)
    : FilterState :=
  mkFilterState (stateVector s) (getQuaternion s) P.

(** [state.getPosition()] *)
Definition getPosition (s : FilterState) : Vector3d :=
  positionBlock (stateVector s).

(** *** RunningData *)

Record RunningData : Type := mkRunningData {
  m_filter : Filter;
  m_imuError : list double;
  m_cameraError : list double;
  rd_cTr : Isometry3d;
  m_orientation : Quaterniond;
  m_lastPosition : OSVR_TimeValue;
  m_lastIMU : OSVR_TimeValue
}.

(** [takeCameraPoseToRoom(pose)]: [m_cTr * fromPose(pose)]. *)
Definition takeCameraPoseToRoom (cTr : Isometry3d) (pose : OSVR_PoseState)
    : Isometry3d :=
  iso_mul cTr (fromPose pose).

(** The constructor [RunningData(cTr, initialIMU, initialVideo,
    lastPosition, lastIMU)]. *)
Definition newRunningData (cTr : Isometry3d)
    (initialIMU : OSVR_OrientationState) (initialVideo : OSVR_PoseState)
    (lastPosition lastIMU : OSVR_TimeValue) : RunningData :=
  let roomPose := takeCameraPoseToRoom cTr initialVideo in
  let initialState := setPositionBlock (iso_translation roomPose) (Zero 12) in
  let st := setStateVector initialState (state defaultFilter) in
  let st := setQuaternion (quat_of_matrix (iso_rotation roomPose)) st in
  let st := setErrorCovariance (asDiagonal InitialStateError) st in
  let pm :=
    mkProcessModel
      (scaleVector half (noiseAutocorrelation (processModel defaultFilter))) in
  mkRunningData
    (mkFilter st pm)
    (coeffs4 (getVec4 (vecToQuat IMUError)))
    (coeffs3 CameraPositionError
       ++ coeffs4 (getVec4 (vecToQuat CameraOrientationError)))
    cTr
    (fromQuat initialIMU)
    lastPosition
    lastIMU.

(** [preReport(timestamp, last)]: [last] is a reference to one of the two
    last-seen timestamps, so the function returns its new value next to
    the filter and the flag. *)
Definition preReport (timestamp last : OSVR_TimeValue) (f : Filter)
    : bool * OSVR_TimeValue * Filter :=
  let dt := secondsElapsed last timestamp in
  if leb dt zero then (false, last, f)
  else (true, timestamp, predict dt f).

Definition handleIMUReport (timestamp : OSVR_TimeValue)
    (report : OSVR_OrientationReport) (rd : RunningData) : RunningData :=
  let orientation := fromQuat (or_rotation report) in
  let '(ok, lastIMU, f) := preReport timestamp (m_lastIMU rd) (m_filter rd) in
  let f :=
    if ok then
      correctOrientation
        (mkOriMeas (fromQuat (or_rotation report))
                   (asDiagonal (m_imuError rd))) f
    else f in
  mkRunningData f (m_imuError rd) (m_cameraError rd) (rd_cTr rd)
    orientation (m_lastPosition rd) lastIMU.

(** The console output of the source after a pose correction has no effect
    on the controller and is left out. *)
Definition handleVideoTrackerReport (timestamp : OSVR_TimeValue)
    (report : OSVR_PoseReport) (rd : RunningData) : RunningData :=
  let roomPose := takeCameraPoseToRoom (rd_cTr rd) (pr_pose report) in
  let '(ok, lastPosition, f) :=
    preReport timestamp (m_lastPosition rd) (m_filter rd) in
  let f :=
    if ok then
      let ori := quat_of_matrix (iso_rotation roomPose) in
      let pos := iso_translation roomPose in
      correctPose (mkPoseMeas pos ori (asDiagonal (m_cameraError rd))) f
    else f in
  mkRunningData f (m_imuError rd) (m_cameraError rd) (rd_cTr rd)
    (m_orientation rd) lastPosition (m_lastIMU rd).

Definition getOrientation (rd : RunningData) : Quaterniond :=
  getQuaternion (state (m_filter rd)).

Definition rd_getPosition (rd : RunningData) : Vector3d :=
  getPosition (state (m_filter rd)).

(** *** StartupData *)

Definition REQUIRED_SAMPLES : Z := 10.

Record StartupData : Type := mkStartupData {
  reports : Z;
  last : OSVR_TimeValue;
  positionFilter : OneEuroVec;
  orientationFilter : OneEuroQuat
}.

(** [StartupData()]; [now] is what [time::getNow()] returns. *)
Definition newStartupData (now : OSVR_TimeValue) : StartupData :=
  mkStartupData 0 now oneEuroVec_init oneEuroQuat_init.

(** The elapsed time [StartupData::handleReport] hands to its filters. *)
Definition startup_dt (sd : StartupData) (timestamp : OSVR_TimeValue)
    : double :=
  let dt := secondsElapsed (last sd) timestamp in
  if leb dt zero then one else dt.

(** The candidate [cTr] of [StartupData::handleReport]:
    [dTc.inverse() * Eigen::Isometry3d(fromQuat(orientation))]. *)
Definition candidate_cTr (report : OSVR_PoseReport)
    (orientation : OSVR_OrientationState) : Isometry3d :=
  let dTc := fromPose (pr_pose report) in
  iso_mul (iso_inverse dTc) (iso_of_quat (fromQuat orientation)).

Definition sd_handleReport (timestamp : OSVR_TimeValue)
    (report : OSVR_PoseReport) (orientation : OSVR_OrientationState)
    (sd : StartupData) : StartupData :=
  let dt := startup_dt sd timestamp in
  let cTr := candidate_cTr report orientation in
  mkStartupData
    (wrap_size_t (reports sd + 1))
    timestamp
    (filterVec dt (iso_translation cTr) (positionFilter sd))
    (filterQuat dt (quat_of_matrix (iso_rotation cTr)) (orientationFilter sd)).

Definition finished (sd : StartupData) : bool :=
  REQUIRED_SAMPLES <=? reports sd.

Definition getRoomToCamera (sd : StartupData) : Isometry3d :=
  fromPositionOrientationScale
    (getStateVec (positionFilter sd))
    (getStateQuat (orientationFilter sd))
    (mkVec3 one one one).

(** *** The controller *)

(** Modelled from the spec: the enumeration [State] is declared in the
    class header, outside the translated sources; its values are the two
    lifecycle states, which are also the two this file names. *)
Inductive State : Type := AcquiringCameraPose | Running.

Definition State_eqb (a b : State) : bool :=
  match a, b with
  | AcquiringCameraPose, AcquiringCameraPose => true
  | Running, Running => true
  | _, _ => false
  end.

Record VideoIMUFusion : Type := mkController {
  m_state : State;
  m_cTr : Isometry3d;
  m_startupData : option StartupData;
  m_runningData : option RunningData
}.

(** A callback returns the controller it leaves behind and the poses it
    sent, in the order of the calls. *)
Definition Step : Type := Outcome (VideoIMUFusion * list PoseEmission).

Definition enterCameraPoseAcquisitionState (now : OSVR_TimeValue)
    (c : VideoIMUFusion) : VideoIMUFusion :=
  mkController AcquiringCameraPose (m_cTr c)
    (Some (newStartupData now)) (m_runningData c).

(** The controller as its constructor leaves it.  The members start out
    with both pointers empty; [s0] and [cTr0] stand for what [m_state] and
    [m_cTr] hold before the constructor body assigns them. *)
Definition newVideoIMUFusion (now : OSVR_TimeValue) (s0 : State)
    (cTr0 : Isometry3d) : VideoIMUFusion :=
  enterCameraPoseAcquisitionState now (mkController s0 cTr0 None None).

(** [enterRunningState(cTr)]; the message it prints on the console is left
    out.  Every member of the controller is assigned on the way. *)
Definition enterRunningState (ifs : ClientInterfaces) (cTr : Isometry3d)
    (c : VideoIMUFusion) : Outcome VideoIMUFusion :=
  let '(ret, oriTs, imuState) :=
    osvrGetOrientationState ifs zeroTimeValue zeroOrientationState in
  _ <- BOOST_ASSERT_MSG ndebug ret ;;
  let '(ret, posTs, videoState) :=
    osvrGetPoseState ifs zeroTimeValue zeroPoseState in
  _ <- BOOST_ASSERT_MSG ndebug ret ;;
  Done (mkController Running cTr None
          (Some (newRunningData cTr imuState videoState posTs oriTs))).

(** The fused pose sent on the primary channel. *)
Definition fusedPose (rd : RunningData) : OSVR_PoseState :=
  mkPose3 (rd_getPosition rd) (toQuat (getOrientation rd)).

Definition withRunningData (rd : RunningData) (c : VideoIMUFusion)
    : VideoIMUFusion :=
  mkController (m_state c) (m_cTr c) (m_startupData c) (Some rd).

Definition withStartupData (sd : StartupData) (c : VideoIMUFusion)
    : VideoIMUFusion :=
  mkController (m_state c) (m_cTr c) (Some sd) (m_runningData c).

Definition handleIMUData (timestamp : OSVR_TimeValue)
    (report : OSVR_OrientationReport) (c : VideoIMUFusion) : Step :=
  if negb (State_eqb (m_state c) Running) then Done (c, [])
  else
    rd <- deref (m_runningData c) ;;
    let rd := handleIMUReport timestamp report rd in
    Done (withRunningData rd c,
          [mkEmission (fusedPose rd) FUSED_SENSOR_ID timestamp]).

Definition handleVideoTrackerDataDuringStartup (ifs : ClientInterfaces)
    (timestamp : OSVR_TimeValue) (report : OSVR_PoseReport)
    (c : VideoIMUFusion) : Step :=
  let '(ret, lastIMU, imuState) :=
    osvrGetOrientationState ifs zeroTimeValue zeroOrientationState in
  if negb ret then Done (c, [])
  else
    sd <- deref (m_startupData c) ;;
    let sd := sd_handleReport timestamp report imuState sd in
    let c := withStartupData sd c in
    if finished sd then
      c <- enterRunningState ifs (getRoomToCamera sd) c ;;
      Done (c, [])
    else Done (c, []).

Definition handleVideoTrackerData (ifs : ClientInterfaces)
    (timestamp : OSVR_TimeValue) (report : OSVR_PoseReport)
    (c : VideoIMUFusion) : Step :=
  if State_eqb (m_state c) AcquiringCameraPose then
    handleVideoTrackerDataDuringStartup ifs timestamp report c
  else
    rd <- deref (m_runningData c) ;;
    let rd := handleVideoTrackerReport timestamp report rd in
    let videoPose := takeCameraPoseToRoom (rd_cTr rd) (pr_pose report) in
    Done (withRunningData rd c,
          [mkEmission (fusedPose rd) FUSED_SENSOR_ID timestamp;
           mkEmission (toPose videoPose) TRANSFORMED_VIDEO_SENSOR_ID
             timestamp]).

(** *** Streams of reports *)

(** A report as the host delivers it: the callback's arguments, together
    with what the client interfaces hold while the callback runs. *)
Inductive Report : Type :=
| IMUReport (timestamp : OSVR_TimeValue) (report : OSVR_OrientationReport)
| VideoReport (timestamp : OSVR_TimeValue) (report : OSVR_PoseReport).

Definition Delivery : Type := (ClientInterfaces * Report)%type.

Definition deliver (d : Delivery) (c : VideoIMUFusion) : Step :=
  match snd d with
  | IMUReport ts r => handleIMUData ts r c
  | VideoReport ts r => handleVideoTrackerData (fst d) ts r c
  end.

(** The callbacks run one after the other, each to completion. *)
Fixpoint run (ds : list Delivery) (c : VideoIMUFusion) : Step :=
  match ds with
  | [] => Done (c, [])
  | d :: ds' =>
      r <- deliver d c ;;
      r' <- run ds' (fst r) ;;
      Done (fst r', snd r ++ snd r')
  end.

End Controller.

(** ** A small implementation of the collaborators

    Used to run the controller on concrete reports.  Rotations are unit
    quaternions (also standing for their rotation matrix), a rigid
    transform is a rotation followed by a translation, the low-pass
    filters keep every sample they were fed, and the filter is a
    constant-velocity predictor whose corrections adopt the measurement. *)

Module Sample.

Definition sub (x y : double) : double := SFsub prec emax x y.

Definition qmul (a b : OSVR_Quaternion) : OSVR_Quaternion :=
  mkQuat
    (sub (sub (sub (mul (q_0 a) (q_0 b)) (mul (q_1 a) (q_1 b)))
              (mul (q_2 a) (q_2 b))) (mul (q_3 a) (q_3 b)))
    (sub (add (add (mul (q_0 a) (q_1 b)) (mul (q_1 a) (q_0 b)))
              (mul (q_2 a) (q_3 b))) (mul (q_3 a) (q_2 b)))
    (add (add (sub (mul (q_0 a) (q_2 b)) (mul (q_1 a) (q_3 b)))
              (mul (q_2 a) (q_0 b))) (mul (q_3 a) (q_1 b)))
    (add (sub (add (mul (q_0 a) (q_3 b)) (mul (q_1 a) (q_2 b)))
              (mul (q_2 a) (q_1 b))) (mul (q_3 a) (q_0 b))).

Definition qconj (a : OSVR_Quaternion) : OSVR_Quaternion :=
  mkQuat (q_0 a) (SFopp (q_1 a)) (SFopp (q_2 a)) (SFopp (q_3 a)).

Definition rotate (q : OSVR_Quaternion) (v : Vector3d) : Vector3d :=
  let r := qmul (qmul q (mkQuat zero (vx v) (vy v) (vz v))) (qconj q) in
  mkVec3 (q_1 r) (q_2 r) (q_3 r).

Definition vadd (a b : Vector3d) : Vector3d :=
  mkVec3 (add (vx a) (vx b)) (add (vy a) (vy b)) (add (vz a) (vz b)).

Definition vopp (a : Vector3d) : Vector3d :=
  mkVec3 (SFopp (vx a)) (SFopp (vy a)) (SFopp (vz a)).

Record Iso : Type := mkIso { iso_q : OSVR_Quaternion; iso_t : Vector3d }.

Definition identityQuat : OSVR_Quaternion := mkQuat one zero zero zero.

#[export] Instance eigen : EigenOps := {|
  Quaterniond := OSVR_Quaternion;
  Matrix3d := OSVR_Quaternion;
  Isometry3d := Iso;
  iso_mul a b :=
    mkIso (qmul (iso_q a) (iso_q b))
          (vadd (iso_t a) (rotate (iso_q a) (iso_t b)));
  iso_inverse a :=
    mkIso (qconj (iso_q a)) (vopp (rotate (qconj (iso_q a)) (iso_t a)));
  iso_of_quat q := mkIso q (mkVec3 zero zero zero);
  iso_translation := iso_t;
  iso_rotation := iso_q;
  quat_of_matrix m := m;
  fromPositionOrientationScale p q _ := mkIso q p;
  fromQuat q := q;
  toQuat q := q;
  fromPose p := mkIso (rotation p) (translation p);
  toPose a := mkPose3 (iso_t a) (iso_q a)
|}.

(** A filter that records its calls, newest first, and reports the latest
    sample as its state. *)
#[export] Instance oneEuro : OneEuroOps := {|
  OneEuroVec := list (double * Vector3d);
  OneEuroQuat := list (double * OSVR_Quaternion);
  oneEuroVec_init := [];
  oneEuroQuat_init := [];
  filterVec dt x f := (dt, x) :: f;
  filterQuat dt q f := (dt, q) :: f;
  getStateVec f :=
    match f with
    | (_, x) :: _ => x
    | [] => mkVec3 zero zero zero
    end;
  getStateQuat f :=
    match f with
    | (_, q) :: _ => q
    | [] => identityQuat
    end
|}.

(** Position advances by velocity times [dt]. *)
Definition advance (dt : double) (v : list double) : list double :=
  match v with
  | x :: y :: z :: vx :: vy :: vz :: rest =>
      add x (mul vx dt) :: add y (mul vy dt) :: add z (mul vz dt)
        :: vx :: vy :: vz :: rest
  | _ => v
  end.

Definition unitNoise : list double := repeat one 6.

#[export] Instance kalman : KalmanOps := {|
  defaultFilter :=
    mkFilter (mkFilterState (Zero 12) identityQuat (asDiagonal (Zero 12)))
             (mkProcessModel unitNoise);
  predict dt f :=
    mkFilter
      (mkFilterState (advance dt (stateVector (state f)))
                     (getQuaternion (state f))
                     (errorCovariance (state f)))
      (processModel f);
  correctOrientation meas f :=
    mkFilter
      (mkFilterState (stateVector (state f)) (aom_quat meas)
                     (errorCovariance (state f)))
      (processModel f);
  correctPose meas f :=
    mkFilter
      (mkFilterState (setPositionBlock (apm_pos meas) (stateVector (state f)))
                     (apm_ori meas)
                     (errorCovariance (state f)))
      (processModel f);
  vecToQuat v := mkQuat one (mul (vx v) half) (mul (vy v) half)
                   (mul (vz v) half);
  getVec4 q := mkVec4 (q_1 q) (q_2 q) (q_3 q) (q_0 q)
|}.

(** Time [s] seconds and [us] microseconds. *)
Definition at_time (s us : Z) : OSVR_TimeValue := mkTimeValue s us.

(** A camera one unit along x from the room origin, a device at the room
    origin, both with identity rotation: the tracker reports the device at
    [(-1, 0, 0)] in camera coordinates. *)
Definition trackerPose : OSVR_PoseState :=
  mkPose3 (mkVec3 (SFopp one) zero zero) identityQuat.

Definition poseReport : OSVR_PoseReport := mkPoseReport 0 trackerPose.
Definition imuReport : OSVR_OrientationReport :=
  mkOrientationReport 0 identityQuat.

(** Interfaces holding an orientation of time [t_imu] and the pose of time
    [t_video]. *)
Definition bothAvailable (t_imu t_video : OSVR_TimeValue) : ClientInterfaces :=
  mkInterfaces (Some (t_imu, identityQuat)) (Some (t_video, trackerPose)).

(** Interfaces before any orientation report: only the pose is there. *)
Definition noOrientationYet (t_video : OSVR_TimeValue) : ClientInterfaces :=
  mkInterfaces None (Some (t_video, trackerPose)).

(** The [n] pose reports of seconds [s+1 .. s+n], each delivered while
    the interfaces hold an orientation of time [100] and that pose. *)
Fixpoint poseReports (s : Z) (n : nat) : list Delivery :=
  match n with
  | O => []
  | S n' =>
      (bothAvailable (at_time 100 0) (at_time (s + 1) 0),
       VideoReport (at_time (s + 1) 0) poseReport)
        :: poseReports (s + 1) n'
  end.

(** What [m_cTr] holds before it is first assigned. *)
Definition unsetTransform : Isometry3d :=
  mkIso identityQuat (mkVec3 zero zero zero).

(** The controller constructed at time [100]. *)
Definition fresh : VideoIMUFusion :=
  newVideoIMUFusion (at_time 100 0) AcquiringCameraPose unsetTransform.

(** The controller a step leaves behind, [c] itself if the step stopped
    the process. *)
Definition after (r : Step) (c : VideoIMUFusion) : VideoIMUFusion :=
  match r with
  | Done (c', _) => c'
  | _ => c
  end.

(** The controller after ten accepted pose reports (seconds 101 to 110). *)
Definition calibrated : VideoIMUFusion :=
  Eval vm_compute in after (run false (poseReports 100 10) fresh) fresh.

(** Its running data. *)
Definition calibratedData : RunningData :=
  Eval vm_compute in
    match m_runningData calibrated with
    | Some rd => rd
    | None =>
        newRunningData (m_cTr calibrated) identityQuat trackerPose
          zeroTimeValue zeroTimeValue
    end.

(** The accumulator of the fresh controller. *)
Definition freshData : StartupData := newStartupData (at_time 100 0).

(** The controller after nine accepted pose reports (seconds 101 to 109),
    and its accumulator. *)
Definition almostCalibrated : VideoIMUFusion :=
  Eval vm_compute in after (run false (poseReports 100 9) fresh) fresh.

Definition almostCalibratedData : StartupData :=
  Eval vm_compute in
    match m_startupData almostCalibrated with
    | Some sd => sd
    | None => freshData
    end.

(** The pose report of second 110, which completes the sample
    calibration. *)
Definition tenthReport : Delivery :=
  (bothAvailable (at_time 100 0) (at_time 110 0),
   VideoReport (at_time 110 0) poseReport).

(** Interfaces holding an orientation of time [t_imu] and no pose. *)
Definition noPoseYet (t_imu : OSVR_TimeValue) : ClientInterfaces :=
  mkInterfaces (Some (t_imu, identityQuat)) None.

(** Reports for the calibrated controller: an orientation of second 105,
    a pose of second 111, and a late orientation of second 100. *)
Definition mixedReports : list Delivery :=
  [(bothAvailable (at_time 105 0) (at_time 110 0),
    IMUReport (at_time 105 0) imuReport);
   (bothAvailable (at_time 105 0) (at_time 111 0),
    VideoReport (at_time 111 0) poseReport);
   (bothAvailable (at_time 100 0) (at_time 111 0),
    IMUReport (at_time 100 0) imuReport)].

(** Reports for the calibrated controller in which each sensor advances:
    orientations of seconds 105 and 105.5 around a pose of second 111. *)
Definition advancingReports : list Delivery :=
  [(bothAvailable (at_time 105 0) (at_time 110 0),
    IMUReport (at_time 105 0) imuReport);
   (bothAvailable (at_time 105 0) (at_time 111 0),
    VideoReport (at_time 111 0) poseReport);
   (bothAvailable (at_time 105 500000) (at_time 111 0),
    IMUReport (at_time 105 500000) imuReport)].

End Sample.

(** ** Specification vocabulary *)

Section Vocabulary.

Context `{E : EigenOps} {O : OneEuroOps} {K : KalmanOps}.

(** The payload the controller holds is the one of its state, and it holds
    no other. *)
Definition exactly_one_payload (c : VideoIMUFusion) : Prop :=
  match m_state c with
  | AcquiringCameraPose =>
      m_startupData c <> None /\ m_runningData c = None
  | Running =>
      m_startupData c = None /\ m_runningData c <> None
  end.

(** A delivery the accumulator accepts as a sample: a pose report that
    finds an orientation state on the IMU interface. *)
Definition accepted_sample (d : Delivery) : bool :=
  match snd d, imu_state (fst d) with
  | VideoReport _ _, Some _ => true
  | _, _ => false
  end.

(** Number of accepted samples among the deliveries. *)
Definition accepted (ds : list Delivery) : Z :=
  Z.of_nat (length (filter accepted_sample ds)).

(** While a pose callback runs, the video interface holds a pose state. *)
Definition pose_state_available (d : Delivery) : Prop :=
  match snd d with
  | VideoReport _ _ => video_state (fst d) <> None
  | IMUReport _ _ => True
  end.

(** What holds of the controller between callbacks: while acquiring, the
    accumulator is there with fewer samples than required and there is no
    running data; once running, the running data is there and the
    accumulator is gone. *)
Definition lifecycle_inv (c : VideoIMUFusion) : Prop :=
  match m_state c with
  | AcquiringCameraPose =>
      (exists sd, m_startupData c = Some sd /\
                  0 <= reports sd < REQUIRED_SAMPLES) /\
      m_runningData c = None
  | Running =>
      m_startupData c = None /\ exists rd, m_runningData c = Some rd
  end.

(** The sample counter, read through the accumulator pointer. *)
Definition counted (c : VideoIMUFusion) : Z :=
  match m_startupData c with
  | Some sd => reports sd
  | None => 0
  end.

(** The emissions on the primary channel. *)
Definition on_primary_channel (out : list PoseEmission) : list PoseEmission :=
  filter (fun e => em_channel e =? FUSED_SENSOR_ID) out.

End Vocabulary.

(** ** Vocabulary for time *)

(** The mantissa of the double [1000000.0], whose exponent is -33. *)
Definition million_mantissa : positive := 8589934592000000.

(** A double that is finite or infinite, nonzero, with sign [s]. *)
Definition signed_nonzero (s : bool) (f : double) : Prop :=
  (exists m e, f = S754_finite s m e) \/ f = S754_infinity s.

(** A timestamp with its microseconds below one second, and with seconds
    small enough for differences of two of them to fit 64 bits. *)
Definition well_formed_time (t : OSVR_TimeValue) : Prop :=
  0 <= microseconds t < 1000000 /\ - 2 ^ 62 <= seconds t < 2 ^ 62.

(** A timestamp as a number of microseconds. *)
Definition in_microseconds (t : OSVR_TimeValue) : Z :=
  seconds t * 1000000 + microseconds t.

(** ** Vocabulary for streams *)

Section StreamVocabulary.

Context `{E : EigenOps} {O : OneEuroOps} {K : KalmanOps}.

(** The timestamp a report was delivered with. *)
Definition report_timestamp (r : Report) : OSVR_TimeValue :=
  match r with
  | IMUReport ts _ => ts
  | VideoReport ts _ => ts
  end.

Definition is_pose_report (d : Delivery) : bool :=
  match snd d with
  | VideoReport _ _ => true
  | IMUReport _ _ => false
  end.

(** The emissions on the second channel. *)
Definition on_debug_channel (out : list PoseEmission) : list PoseEmission :=
  filter (fun e => em_channel e =? TRANSFORMED_VIDEO_SENSOR_ID) out.

(** The pose of every pose report of a stream taken to the room by [cTr],
    as sent on the second channel. *)
Fixpoint reoriented_poses (cTr : Isometry3d) (ds : list Delivery)
    : list PoseEmission :=
  match ds with
  | [] => []
  | d :: ds' =>
      match snd d with
      | VideoReport ts r =>
          mkEmission (toPose (takeCameraPoseToRoom cTr (pr_pose r)))
            TRANSFORMED_VIDEO_SENSOR_ID ts
            :: reoriented_poses cTr ds'
      | IMUReport _ _ => reoriented_poses cTr ds'
      end
  end.

(** The measurement error vectors the constructor of the running data
    computes. *)
Definition imuErrorVector : list double :=
  coeffs4 (getVec4 (vecToQuat IMUError)).

Definition cameraErrorVector : list double :=
  coeffs3 CameraPositionError
    ++ coeffs4 (getVec4 (vecToQuat CameraOrientationError)).

(** An orientation report taken into the filter: prediction over the time
    since the last accepted orientation, then correction by the reported
    orientation. *)
Definition fuseOrientation (ts : OSVR_TimeValue)
    (report : OSVR_OrientationReport) (rd : RunningData) : RunningData :=
  mkRunningData
    (correctOrientation
       (mkOriMeas (fromQuat (or_rotation report)) (asDiagonal (m_imuError rd)))
       (predict (secondsElapsed (m_lastIMU rd) ts) (m_filter rd)))
    (m_imuError rd) (m_cameraError rd) (rd_cTr rd)
    (fromQuat (or_rotation report)) (m_lastPosition rd) ts.

(** A pose report taken into the filter: prediction over the time since
    the last accepted pose, then correction by the reported pose taken to
    the room. *)
Definition fusePose (ts : OSVR_TimeValue) (report : OSVR_PoseReport)
    (rd : RunningData) : RunningData :=
  let roomPose := takeCameraPoseToRoom (rd_cTr rd) (pr_pose report) in
  mkRunningData
    (correctPose
       (mkPoseMeas (iso_translation roomPose)
                   (quat_of_matrix (iso_rotation roomPose))
                   (asDiagonal (m_cameraError rd)))
       (predict (secondsElapsed (m_lastPosition rd) ts) (m_filter rd)))
    (m_imuError rd) (m_cameraError rd) (rd_cTr rd)
    (m_orientation rd) ts (m_lastIMU rd).

(** Every report of a stream taken into the filter, none left out. *)
Fixpoint fuse_every_report (ds : list Delivery) (rd : RunningData)
    : RunningData :=
  match ds with
  | [] => rd
  | d :: ds' =>
      fuse_every_report ds'
        match snd d with
        | IMUReport ts r => fuseOrientation ts r rd
        | VideoReport ts r => fusePose ts r rd
        end
  end.

(** Each report of the stream is strictly later than the report before it
    from the same sensor, the first ones being later than [lastIMU] and
    [lastPosition]; the two sensors may interleave in any way. *)
Fixpoint each_sensor_advances (lastIMU lastPosition : OSVR_TimeValue)
    (ds : list Delivery) : Prop :=
  match ds with
  | [] => True
  | d :: ds' =>
      match snd d with
      | IMUReport ts _ =>
          well_formed_time ts /\
          in_microseconds lastIMU < in_microseconds ts /\
          each_sensor_advances ts lastPosition ds'
      | VideoReport ts _ =>
          well_formed_time ts /\
          in_microseconds lastPosition < in_microseconds ts /\
          each_sensor_advances lastIMU ts ds'
      end
  end.

End StreamVocabulary.

(** Closes the order and range facts of concrete timestamps. *)
Ltac time_facts :=
  repeat split; (reflexivity || (let H := fresh in intro H; discriminate H)).

(** * Properties *)

(** ** Rounding of doubles

    What the conversions, the division and the addition of
    [secondsElapsed] do to the sign and to the size of their operands,
    read off the definitions of the binary64 operations. *)

Lemma digits2_size (p : positive) : digits2_pos p = Pos.size p.
Proof. induction p; simpl; congruence. Qed.

Lemma digits_bounds (p : positive) :
  2 ^ (Zpos (digits2_pos p) - 1) <= Zpos p < 2 ^ Zpos (digits2_pos p).
Proof.
  rewrite digits2_size. split.
  - pose proof (Pos.size_le p) as H.
    apply Pos2Z.pos_le_pos in H. rewrite Pos2Z.inj_pow in H.
    change (Zpos p~0) with (2 * Zpos p) in H.
    replace (Zpos (Pos.size p)) with (Z.succ (Zpos (Pos.size p) - 1)) in H by lia.
    rewrite Z.pow_succ_r in H by lia. lia.
  - pose proof (Pos.size_gt p) as H.
    apply Pos2Z.pos_lt_pos in H. now rewrite Pos2Z.inj_pow in H.
Qed.

Lemma digits_unique (p : positive) (k : Z) :
  2 ^ (k - 1) <= Zpos p < 2 ^ k -> Zpos (digits2_pos p) = k.
Proof.
  intros [Hlo Hhi]. pose proof (digits_bounds p) as [Dlo Dhi].
  assert (Hk : 0 < k).
  { destruct (Z.ltb_spec 0 k); [assumption|].
    exfalso. destruct (Z.eq_dec k 0) as [->|].
    - simpl in Hhi. lia.
    - rewrite Z.pow_neg_r in Hhi by lia. lia. }
  destruct (Z.lt_trichotomy (Zpos (digits2_pos p)) k) as [Hlt | [Heq | Hgt]];
    [exfalso | assumption | exfalso].
  - assert (2 ^ Zpos (digits2_pos p) <= 2 ^ (k - 1))
      by (apply Z.pow_le_mono_r; lia). lia.
  - assert (2 ^ k <= 2 ^ (Zpos (digits2_pos p) - 1))
      by (apply Z.pow_le_mono_r; lia). lia.
Qed.

Lemma shr_1_m (mrs : shr_record) :
  0 <= shr_m mrs ->
  shr_m (shr_1 mrs) = shr_m mrs / 2 /\ 0 <= shr_m (shr_1 mrs).
Proof.
  destruct mrs as [m r s]. simpl. intros Hm.
  rewrite <- Z.div2_div.
  destruct m as [|p|p]; [now split | | lia].
  destruct p; simpl; split; (reflexivity || lia).
Qed.

Lemma iter_shr_m (n : positive) :
  forall mrs : shr_record,
    0 <= shr_m mrs ->
    shr_m (iter_pos shr_1 n mrs) = shr_m mrs / 2 ^ Zpos n /\
    0 <= shr_m (iter_pos shr_1 n mrs).
Proof.
  induction n as [n IH | n IH |]; intros mrs Hm; cbn [iter_pos].
  - destruct (shr_1_m mrs Hm) as [E1 P1].
    destruct (IH _ P1) as [E2 P2]. destruct (IH _ P2) as [E3 P3].
    split; [|exact P3]. rewrite E3, E2, E1.
    rewrite !Z.div_div by lia.
    f_equal. change (Zpos n~1) with (2 * Zpos n + 1).
    replace (2 * Zpos n + 1) with (1 + Zpos n + Zpos n) by lia.
    rewrite !Z.pow_add_r by lia. lia.
  - destruct (IH _ Hm) as [E2 P2]. destruct (IH _ P2) as [E3 P3].
    split; [|exact P3]. rewrite E3, E2.
    rewrite !Z.div_div by lia.
    f_equal. change (Zpos n~0) with (2 * Zpos n).
    replace (2 * Zpos n) with (Zpos n + Zpos n) by lia.
    rewrite !Z.pow_add_r by lia. lia.
  - destruct (shr_1_m mrs Hm) as [E1 P1]. split; [|exact P1].
    now rewrite Z.pow_1_r.
Qed.

Lemma fexp_normal (e : Z) : -1021 <= e -> fexp prec emax e = e - 53.
Proof. unfold fexp, SpecFloat.emin, prec, emax. lia. Qed.

Lemma shr_record_of_loc_m (m : Z) (l : location) :
  shr_m (shr_record_of_loc m l) = m.
Proof. destruct l as [|[| |]]; reflexivity. Qed.

Lemma shr_spec (mrs : shr_record) (e n : Z) :
  0 <= shr_m mrs -> 0 <= n ->
  shr_m (fst (shr mrs e n)) = shr_m mrs / 2 ^ n /\
  snd (shr mrs e n) = e + n.
Proof.
  intros Hm Hn. unfold shr. destruct n as [|p|p]; [| |lia].
  - simpl. rewrite Z.div_1_r. split; lia.
  - simpl fst. simpl snd. split; [|reflexivity].
    exact (proj1 (iter_shr_m p mrs Hm)).
Qed.

Lemma round_nearest_even_bounds (m : Z) (l : location) :
  m <= round_nearest_even m l <= m + 1.
Proof.
  unfold round_nearest_even. destruct l as [|[| |]]; try lia.
  destruct (Z.even m); lia.
Qed.

Lemma binary_round_aux_normal (s : bool) (m : positive) (e : Z)
    (l : location) :
  53 <= Zpos (digits2_pos m) -> -1074 <= e ->
  exists (m' : positive) (e' : Z),
    binary_round_aux prec emax s (Zpos m) e l
      = (if e' <=? 971 then S754_finite s m' e' else S754_infinity s) /\
    2 ^ 52 <= Zpos m' < 2 ^ 53 /\
    (e' = e + Zpos (digits2_pos m) - 53 \/
     (e' = e + Zpos (digits2_pos m) - 52 /\
      Zpos m / 2 ^ (Zpos (digits2_pos m) - 53) = 2 ^ 53 - 1)).
Proof.
  intros Hd He. set (d := Zpos (digits2_pos m)) in *.
  pose proof (digits_bounds m) as [Mlo Mhi]. fold d in Mlo, Mhi.
  unfold binary_round_aux, shr_fexp.
  change (Zdigits2 (Zpos m)) with d.
  rewrite fexp_normal by lia.
  replace (d + e - 53 - e) with (d - 53) by lia.
  pose proof (shr_spec (shr_record_of_loc (Zpos m) l) e (d - 53)) as H1.
  rewrite shr_record_of_loc_m in H1.
  destruct (shr (shr_record_of_loc (Zpos m) l) e (d - 53)) as [mrs1 e1].
  simpl fst in H1. simpl snd in H1.
  destruct H1 as [Hm1 He1]; [lia | lia |].
  assert (Hpow : 2 ^ d = 2 ^ (d - 53) * 2 ^ 53)
    by (rewrite <- Z.pow_add_r by lia; f_equal; lia).
  assert (Hpow' : 2 ^ (d - 1) = 2 ^ (d - 53) * 2 ^ 52)
    by (rewrite <- Z.pow_add_r by lia; f_equal; lia).
  assert (Hp0 : 0 < 2 ^ (d - 53)) by (apply Z.pow_pos_nonneg; lia).
  assert (Hb1 : 2 ^ 52 <= shr_m mrs1 < 2 ^ 53).
  { rewrite Hm1. split.
    - apply Z.div_le_lower_bound; lia.
    - apply Z.div_lt_upper_bound; lia. }
  pose proof (round_nearest_even_bounds (shr_m mrs1)
                (loc_of_shr_record mrs1)) as Hr.
  set (r := round_nearest_even (shr_m mrs1) (loc_of_shr_record mrs1)) in *.
  destruct r as [|pr|pr] eqn:Er; [lia | | lia].
  destruct (Z.ltb_spec (Zpos pr) (2 ^ 53)) as [Hlt | Hge].
  - assert (Hdr : Zpos (digits2_pos pr) = 53)
      by (apply digits_unique; change (53 - 1) with 52; lia).
    cbn [Zdigits2]. rewrite Hdr.
    rewrite fexp_normal by lia.
    replace (53 + e1 - 53 - e1) with 0 by lia.
    cbn [shr shr_record_of_loc shr_m].
    change (Z.sub emax prec) with 971.
    exists pr, e1. split; [reflexivity|]. split; [lia|]. left. lia.
  - assert (Hpr : Zpos pr = 2 ^ 53) by lia.
    assert (Hdr : Zpos (digits2_pos pr) = 54)
      by (apply digits_unique; rewrite Hpr; change (54 - 1) with 53;
          split; [lia | apply Z.pow_lt_mono_r; lia]).
    cbn [Zdigits2]. rewrite Hdr.
    rewrite fexp_normal by lia.
    replace (54 + e1 - 53 - e1) with 1 by lia.
    assert (Epr : pr = (2 ^ 53)%positive)
      by (apply Pos2Z.inj; rewrite Hpr; reflexivity).
    subst pr.
    cbn [shr shr_record_of_loc iter_pos].
    change (Z.sub emax prec) with 971.
    exists (2 ^ 52)%positive, (e1 + 1). split; [reflexivity|].
    split; [split; [reflexivity | reflexivity]|].
    right. split; [lia|]. rewrite <- Hm1. lia.
Qed.

Lemma iter_xO_value (p k : positive) :
  Zpos (Pos.iter xO p k) = Zpos p * 2 ^ Zpos k.
Proof.
  induction k as [|k IH] using Pos.peano_ind.
  - simpl. lia.
  - rewrite Pos.iter_succ, Pos2Z.inj_succ, Z.pow_succ_r by lia.
    change (Zpos (Pos.iter xO p k)~0) with (2 * Zpos (Pos.iter xO p k)).
    rewrite IH. lia.
Qed.

Lemma shl_align_spec (mx : positive) (ex ex' : Z) :
  ex' <= ex ->
  Zpos (fst (shl_align mx ex ex')) = Zpos mx * 2 ^ (ex - ex') /\
  snd (shl_align mx ex ex') = ex'.
Proof.
  intros H. unfold shl_align.
  destruct (ex' - ex) as [|d|d] eqn:Hd; [| lia |].
  - replace (ex - ex') with 0 by lia. cbn [fst snd]. rewrite Z.pow_0_r. split; lia.
  - simpl fst. simpl snd. split; [|reflexivity].
    rewrite iter_xO_value. f_equal. f_equal. lia.
Qed.

Lemma shl_align_later (mx : positive) (ex ex' : Z) :
  ex <= ex' -> shl_align mx ex ex' = (mx, ex).
Proof.
  intros H. unfold shl_align.
  destruct (ex' - ex) as [|d|d] eqn:Hd; [reflexivity | reflexivity | lia].
Qed.

Lemma binary_round_aux_exact (s : bool) (m : positive) (e : Z) :
  Zpos (digits2_pos m) = 53 -> -1074 <= e <= 971 ->
  binary_round_aux prec emax s (Zpos m) e loc_Exact = S754_finite s m e.
Proof.
  intros Hd He. unfold binary_round_aux, shr_fexp.
  cbn [Zdigits2]. rewrite Hd. rewrite fexp_normal by lia.
  replace (53 + e - 53 - e) with 0 by lia.
  cbn [shr shr_record_of_loc shr_m loc_of_shr_record round_nearest_even
       Zdigits2].
  rewrite Hd. rewrite fexp_normal by lia.
  replace (53 + e - 53 - e) with 0 by lia.
  cbn [shr shr_record_of_loc shr_m].
  change (Z.sub emax prec) with 971.
  destruct (Z.leb_spec e 971); [reflexivity | lia].
Qed.

Lemma shifted_digits (p m : positive) :
  Zpos (digits2_pos p) <= 53 ->
  Zpos m = Zpos p * 2 ^ (53 - Zpos (digits2_pos p)) ->
  Zpos (digits2_pos m) = 53.
Proof.
  intros Hd Hm. pose proof (digits_bounds p) as [Lo Hi].
  set (d := Zpos (digits2_pos p)) in *.
  assert (0 < d) by (unfold d; lia).
  assert (H53 : 2 ^ 53 = 2 ^ d * 2 ^ (53 - d))
    by (rewrite <- Z.pow_add_r by lia; f_equal; lia).
  assert (H52 : 2 ^ 52 = 2 ^ (d - 1) * 2 ^ (53 - d))
    by (rewrite <- Z.pow_add_r by lia; f_equal; lia).
  assert (Hp0 : 0 < 2 ^ (53 - d)) by (apply Z.pow_pos_nonneg; lia).
  apply digits_unique. change (53 - 1) with 52. rewrite Hm, H52, H53.
  split.
  - apply Z.mul_le_mono_nonneg_r; lia.
  - apply Z.mul_lt_mono_pos_r; lia.
Qed.

Lemma binary_round_small_exact (s : bool) (p : positive) :
  Zpos (digits2_pos p) <= 53 ->
  exists m : positive,
    binary_round prec emax s p 0
      = S754_finite s m (Zpos (digits2_pos p) - 53) /\
    Zpos m = Zpos p * 2 ^ (53 - Zpos (digits2_pos p)) /\
    Zpos (digits2_pos m) = 53.
Proof.
  intros Hd. unfold binary_round.
  set (d := Zpos (digits2_pos p)) in *.
  assert (0 < d) by (unfold d; lia).
  rewrite fexp_normal by lia. rewrite Z.add_0_r.
  pose proof (shl_align_spec p 0 (d - 53)) as Hal.
  destruct (shl_align p 0 (d - 53)) as [mz ez].
  simpl fst in Hal. simpl snd in Hal. destruct Hal as [Hm He]; [lia|]. subst ez.
  replace (0 - (d - 53)) with (53 - d) in Hm by lia.
  pose proof (shifted_digits p mz Hd Hm) as Hdz.
  exists mz. split; [|split; assumption].
  apply binary_round_aux_exact; [exact Hdz | lia].
Qed.

Lemma binary_round_normal (s : bool) (p : positive) (e : Z) :
  -1021 <= e ->
  exists (m' : positive) (e' : Z),
    binary_round prec emax s p e
      = (if e' <=? 971 then S754_finite s m' e' else S754_infinity s) /\
    2 ^ 52 <= Zpos m' < 2 ^ 53 /\
    e + Zpos (digits2_pos p) - 53 <= e' <= e + Zpos (digits2_pos p) - 52.
Proof.
  intros He. unfold binary_round.
  pose proof (digits_bounds p) as [Lo Hi].
  set (d := Zpos (digits2_pos p)) in *.
  assert (0 < d) by (unfold d; lia).
  rewrite fexp_normal by lia.
  destruct (Z.le_gt_cases 53 d) as [Hbig | Hsmall].
  - rewrite shl_align_later by lia.
    destruct (binary_round_aux_normal s p e loc_Exact)
      as [m' [e' [Heq [Hm Hc]]]]; [exact Hbig | lia |].
    fold d in Hc. exists m', e'. split; [exact Heq|]. split; [exact Hm|].
    lia.
  - pose proof (shl_align_spec p e (d + e - 53)) as Hal.
    destruct (shl_align p e (d + e - 53)) as [mz ez].
    simpl fst in Hal. simpl snd in Hal. destruct Hal as [Hm Hez]; [lia|]. subst ez.
    replace (e - (d + e - 53)) with (53 - d) in Hm by lia.
    assert (Hdz : Zpos (digits2_pos mz) = 53)
      by (apply (shifted_digits p mz); [fold d; lia | exact Hm]).
    destruct (binary_round_aux_normal s mz (d + e - 53) loc_Exact)
      as [m' [e' [Heq [Hm' Hc]]]]; [lia | lia |].
    rewrite Hdz in Hc.
    exists m', e'. split; [exact Heq|]. split; [exact Hm'|]. lia.
Qed.

Lemma digits_ge (p : positive) (k : Z) :
  2 ^ k <= Zpos p -> k < Zpos (digits2_pos p).
Proof.
  intros H. pose proof (digits_bounds p) as [_ Hi].
  destruct (Z.lt_ge_cases k (Zpos (digits2_pos p))) as [|Hge]; [assumption|].
  assert (2 ^ Zpos (digits2_pos p) <= 2 ^ k)
    by (apply Z.pow_le_mono_r; lia). lia.
Qed.

Lemma digits_le (p : positive) (k : Z) :
  0 <= k -> Zpos p < 2 ^ k -> Zpos (digits2_pos p) <= k.
Proof.
  intros Hk H. pose proof (digits_bounds p) as [Lo _].
  destruct (Z.le_gt_cases (Zpos (digits2_pos p)) k) as [|Hgt]; [assumption|].
  assert (2 ^ k <= 2 ^ (Zpos (digits2_pos p) - 1))
    by (apply Z.pow_le_mono_r; lia). lia.
Qed.

Lemma div_core_spec (m1 m2 : positive) (e1 e2 : Z) :
  Zpos (digits2_pos m1) = 53 -> Zpos (digits2_pos m2) = 53 ->
  -1021 <= e1 - e2 ->
  SFdiv_core_binary prec emax (Zpos m1) e1 (Zpos m2) e2
    = (Zpos m1 * 2 ^ 53 / Zpos m2, e1 - e2 - 53,
       new_location (Zpos m2) (Zpos m1 * 2 ^ 53 mod Zpos m2)).
Proof.
  intros H1 H2 He. unfold SFdiv_core_binary. cbn [Zdigits2].
  rewrite H1, H2.
  replace (53 + e1 - (53 + e2)) with (e1 - e2) by lia.
  rewrite fexp_normal by lia.
  rewrite Z.min_l by lia.
  replace (e1 - e2 - (e1 - e2 - 53)) with 53 by lia.
  cbv iota. rewrite Z.shiftl_mul_pow2 by lia.
  unfold Z.div, Z.modulo.
  destruct (Z.div_eucl (Zpos m1 * 2 ^ 53) (Zpos m2)) as [q r]. reflexivity.
Qed.

Lemma million_eq : million = S754_finite false million_mantissa (-33).
Proof. reflexivity. Qed.

Lemma million_value : Zpos million_mantissa = 1000000 * 2 ^ 33.
Proof. reflexivity. Qed.

(** The microseconds part: a nonzero difference below a million in size
    becomes a finite double of the same sign and of magnitude below 1. *)
Lemma micro_fraction (u : Z) :
  u <> 0 -> -1000000 < u < 1000000 ->
  exists (m : positive) (e : Z),
    div (of_Z u) million = S754_finite (u <? 0) m e /\
    Zpos m < 2 ^ 53 /\ -72 <= e <= -53.
Proof.
  intros Hu0 Hu.
  assert (Hcase : exists p, (u = Zpos p \/ u = Zneg p) /\ Zpos p < 1000000).
  { destruct u as [|p|p]; [lia | exists p; split; [now left | lia]
                          | exists p; split; [now right | lia]]. }
  destruct Hcase as [p [Hp Hlt]].
  assert (Hof : of_Z u = binary_round prec emax (u <? 0) p 0)
    by (destruct Hp as [-> | ->]; reflexivity).
  assert (Hd20 : Zpos (digits2_pos p) <= 20)
    by (apply digits_le; [lia | change (2 ^ 20) with 1048576; lia]).
  destruct (binary_round_small_exact (u <? 0) p) as [m1 [Hbr [Hm1 Hdm1]]];
    [lia|].
  set (du := Zpos (digits2_pos p)) in *.
  assert (Hdu : 0 < du) by (unfold du; lia).
  unfold div. rewrite Hof, Hbr, million_eq. unfold SFdiv.
  rewrite div_core_spec; [| exact Hdm1 | reflexivity | lia].
  rewrite xorb_false_r.
  replace (du - 53 - -33 - 53) with (du - 73) by lia.
  set (q := Zpos m1 * 2 ^ 53 / Zpos million_mantissa).
  set (D := 73 - du).
  assert (HD : 53 <= D <= 72) by (unfold D; lia).
  assert (HM : 0 < Zpos million_mantissa) by lia.
  assert (Hq1 : q * Zpos million_mantissa <= Zpos m1 * 2 ^ 53)
    by (unfold q; rewrite Z.mul_comm; apply Z.mul_div_le; lia).
  assert (Hm1lo : 2 ^ 52 <= Zpos m1).
  { pose proof (digits_bounds m1) as [Lo _]. rewrite Hdm1 in Lo.
    exact Lo. }
  assert (Hqlo : 2 ^ 52 <= q).
  { unfold q. apply Z.div_le_lower_bound; [lia|].
    rewrite million_value.
    change (1000000 * 2 ^ 33 * 2 ^ 52) with (1000000 * 2 ^ 32 * 2 ^ 53).
    apply Z.mul_le_mono_nonneg_r; [lia|].
    change (1000000 * 2 ^ 32) with 4294967296000000.
    change (2 ^ 52) with 4503599627370496 in Hm1lo. lia. }
  assert (Hshift : 2 ^ (53 - du) * 2 ^ 53 = 2 ^ D * 2 ^ 33).
  { rewrite <- !Z.pow_add_r by lia. f_equal. unfold D. lia. }
  assert (Hq2 : q * 1000000 <= Zpos p * 2 ^ D).
  { rewrite million_value, Hm1 in Hq1.
    assert (H33 : 0 < 2 ^ 33) by lia.
    apply (Z.mul_le_mono_pos_r _ _ (2 ^ 33) H33).
    replace (Zpos p * 2 ^ D * 2 ^ 33) with (Zpos p * (2 ^ D * 2 ^ 33)) by ring.
    rewrite <- Hshift. lia. }
  assert (HpD : 0 < 2 ^ D) by (apply Z.pow_pos_nonneg; lia).
  assert (Hq3 : q < 2 ^ D) by nia.
  destruct q as [|pq|pq] eqn:Eq; [lia | | lia].
  assert (Hdq_lo : 52 < Zpos (digits2_pos pq)) by (apply digits_ge; lia).
  assert (Hdq_hi : Zpos (digits2_pos pq) <= D) by (apply digits_le; lia).
  destruct (binary_round_aux_normal (u <? 0) pq (du - 73)
              (new_location (Zpos million_mantissa)
                 (Zpos m1 * 2 ^ 53 mod Zpos million_mantissa)))
    as [m' [e' [Heq [Hm' Hc]]]]; [lia | lia |].
  set (dq := Zpos (digits2_pos pq)) in *.
  assert (He' : -72 <= e' <= -53).
  { destruct Hc as [-> | [-> Hmax]]; [unfold D in *; lia|].
    split; [unfold D in *; lia|].
    destruct (Z.eq_dec dq D) as [HdqD | ]; [exfalso | unfold D in *; lia].
    rewrite HdqD in Hmax.
    assert (HpD53 : 0 < 2 ^ (D - 53)) by (apply Z.pow_pos_nonneg; lia).
    assert (HDs : 2 ^ D = 2 ^ (D - 53) * 2 ^ 53)
      by (rewrite <- Z.pow_add_r by lia; f_equal; lia).
    pose proof (Z.mul_div_le (Zpos pq) (2 ^ (D - 53)) HpD53) as Hfl.
    rewrite Hmax in Hfl.
    change (2 ^ 53) with 9007199254740992 in *. nia. }
  exists m', e'. rewrite Heq.
  destruct (Z.leb_spec e' 971); [|lia].
  split; [reflexivity|]. split; lia.
Qed.

Lemma signed_nonzero_positive (f : double) :
  signed_nonzero false f -> ltb zero f = true /\ leb f zero = false.
Proof. intros [[m [e ->]] | ->]; split; reflexivity. Qed.

Lemma signed_nonzero_negative (f : double) :
  signed_nonzero true f -> ltb zero f = false /\ leb f zero = true.
Proof. intros [[m [e ->]] | ->]; split; reflexivity. Qed.

(** The seconds part: a nonzero difference becomes a double of the same
    sign and of magnitude at least 1, or an infinity of that sign. *)
Lemma whole_seconds (s : Z) :
  s <> 0 ->
  (exists (m : positive) (e : Z),
      of_Z s = S754_finite (s <? 0) m e /\ 2 ^ 52 <= Zpos m /\ -52 <= e) \/
  of_Z s = S754_infinity (s <? 0).
Proof.
  intros Hs.
  assert (Hcase : exists p, of_Z s = binary_round prec emax (s <? 0) p 0)
    by (destruct s as [|p|p]; [lia | exists p; reflexivity
                              | exists p; reflexivity]).
  destruct Hcase as [p Hof]. rewrite Hof.
  destruct (binary_round_normal (s <? 0) p 0) as [m' [e' [Heq [Hm He]]]];
    [lia|].
  rewrite Heq. destruct (Z.leb_spec e' 971); [left | now right].
  exists m', e'. split; [reflexivity|]. split; lia.
Qed.

(** Adding a fraction to whole seconds keeps the sign of the seconds. *)
Lemma add_fraction_seconds (sx sy : bool) (mx my : positive) (ex ey : Z) :
  Zpos mx < 2 ^ 53 -> -72 <= ex <= -53 ->
  2 ^ 52 <= Zpos my -> -52 <= ey ->
  signed_nonzero sy (add (S754_finite sx mx ex) (S754_finite sy my ey)).
Proof.
  intros Hmx Hex Hmy Hey. unfold add, SFadd.
  rewrite Z.min_l by lia.
  rewrite (shl_align_later mx ex ex) by lia. cbn [fst].
  pose proof (shl_align_spec my ey ex) as Hal.
  destruct (shl_align my ey ex) as [my' ez]. cbn [fst snd] in *.
  destruct Hal as [Hmy' _]; [lia|].
  assert (Hbig : 2 ^ 53 <= Zpos my').
  { rewrite Hmy'.
    assert (H1 : 2 ^ 1 <= 2 ^ (ey - ex)) by (apply Z.pow_le_mono_r; lia).
    change (2 ^ 53) with (2 ^ 52 * 2 ^ 1).
    apply Z.mul_le_mono_nonneg; lia. }
  assert (Hsum : exists ps,
             cond_Zopp sx (Zpos mx) + cond_Zopp sy (Zpos my')
               = (if sy then Zneg ps else Zpos ps)).
  { destruct sx, sy; unfold cond_Zopp.
    - exists (mx + my')%positive. reflexivity.
    - destruct (- Zpos mx + Zpos my') as [|ps|ps] eqn:Es; [lia | | lia].
      now exists ps.
    - destruct (Zpos mx + - Zpos my') as [|ps|ps] eqn:Es; [lia | lia |].
      now exists ps.
    - exists (mx + my')%positive. reflexivity. }
  destruct Hsum as [ps Hps]. rewrite Hps.
  assert (Hbn : binary_normalize prec emax (if sy then Zneg ps else Zpos ps)
                  ex false = binary_round prec emax sy ps ex)
    by (destruct sy; reflexivity).
  rewrite Hbn.
  destruct (binary_round_normal sy ps ex) as [m' [e' [Heq _]]]; [lia|].
  rewrite Heq. destruct (e' <=? 971); [left; eauto | now right].
Qed.

Lemma wrap_signed_small (w z : Z) :
  0 < w -> - 2 ^ (w - 1) <= z < 2 ^ (w - 1) -> wrap_signed w z = z.
Proof.
  intros Hw Hz. unfold wrap_signed.
  assert (H2 : 2 ^ w = 2 * 2 ^ (w - 1)).
  { replace w with (Z.succ (w - 1)) at 1 by lia.
    apply Z.pow_succ_r. lia. }
  rewrite Z.mod_small by lia. lia.
Qed.

(** The sign of [secondsElapsed]: for timestamps whose microseconds differ
    by less than a million and whose seconds differ by less than 2^63,
    the elapsed time is positive, zero or negative as the later timestamp
    is after, at or before the earlier one. *)
Lemma secondsElapsed_sign (earlier later : OSVR_TimeValue) :
  -1000000 < microseconds later - microseconds earlier < 1000000 ->
  - 2 ^ 63 <= seconds later - seconds earlier < 2 ^ 63 ->
  let elapsed_us :=
    (seconds later - seconds earlier) * 1000000
      + (microseconds later - microseconds earlier) in
  ltb zero (secondsElapsed earlier later) = (0 <? elapsed_us) /\
  leb (secondsElapsed earlier later) zero = (elapsed_us <=? 0).
Proof.
  intros Hu Hs elapsed_us. unfold secondsElapsed.
  rewrite (wrap_signed_small 32) by (change (2 ^ (32 - 1)) with 2147483648; lia).
  rewrite (wrap_signed_small 64) by (change (64 - 1) with 63; lia).
  set (u := microseconds later - microseconds earlier) in *.
  set (s := seconds later - seconds earlier) in *.
  assert (Hgoal : forall sg : bool,
             signed_nonzero sg (add (div (of_Z u) million) (of_Z s)) ->
             sg = (s <? 0) || ((s =? 0) && (u <? 0)) ->
             (s <> 0 \/ u <> 0) ->
             ltb zero (add (div (of_Z u) million) (of_Z s))
               = (0 <? elapsed_us) /\
             leb (add (div (of_Z u) million) (of_Z s)) zero
               = (elapsed_us <=? 0)).
  { intros sg Hsn Hsg Hnz.
    assert (Hsign : sg = (elapsed_us <? 0) /\ elapsed_us <> 0).
    { subst elapsed_us. rewrite Hsg.
      destruct (Z.ltb_spec s 0), (Z.eqb_spec s 0), (Z.ltb_spec u 0);
        simpl; split; try lia;
        (destruct (Z.ltb_spec (s * 1000000 + u) 0); lia). }
    destruct Hsign as [Hsg' Hne]. destruct sg.
    - destruct (signed_nonzero_negative _ Hsn) as [-> ->].
      symmetry in Hsg'. apply Z.ltb_lt in Hsg'.
      split; symmetry; [apply Z.ltb_ge | apply Z.leb_le]; lia.
    - destruct (signed_nonzero_positive _ Hsn) as [-> ->].
      symmetry in Hsg'. apply Z.ltb_ge in Hsg'.
      split; symmetry; [apply Z.ltb_lt | apply Z.leb_gt]; lia. }
  destruct (Z.eq_dec s 0) as [Hs0 | Hs0].
  - destruct (Z.eq_dec u 0) as [Hu0 | Hu0].
    + subst elapsed_us. rewrite Hs0, Hu0. split; reflexivity.
    + apply (Hgoal (u <? 0)); [| rewrite Hs0; reflexivity | now right].
      destruct (micro_fraction u Hu0 Hu) as [m [e [Hx _]]].
      rewrite Hx, Hs0. left. exists m, e. reflexivity.
  - apply (Hgoal (s <? 0)); [| | now left].
    + destruct (whole_seconds s Hs0) as [[my [ey [Hy [Hmy Hey]]]] | Hy];
        rewrite Hy.
      * destruct (Z.eq_dec u 0) as [Hu0 | Hu0].
        -- rewrite Hu0. left. exists my, ey. reflexivity.
        -- destruct (micro_fraction u Hu0 Hu) as [mx [ex [Hx [Hmx Hex]]]].
           rewrite Hx. now apply add_fraction_seconds.
      * right. destruct (Z.eq_dec u 0) as [Hu0 | Hu0].
        -- rewrite Hu0. reflexivity.
        -- destruct (micro_fraction u Hu0 Hu) as [mx [ex [Hx _]]].
           rewrite Hx. reflexivity.
    + destruct (Z.eqb_spec s 0); [contradiction|].
      now rewrite orb_false_r.
Qed.


Section Properties.

Context `{E : EigenOps} {O : OneEuroOps} {K : KalmanOps}.

Variable ndebug : bool.

(** ** Comparisons with zero *)

Lemma positive_not_nonpositive (dt : double) :
  ltb zero dt = true -> leb dt zero = false.
Proof.
  unfold ltb, leb, SFltb, SFleb, zero.
  destruct dt as [s | s | | s m e]; simpl; try discriminate;
    destruct s; simpl; congruence.
Qed.

(** A report that repeats the timestamp it is measured from has an
    elapsed time of zero, whatever the timestamp. *)
Lemma secondsElapsed_same (t : OSVR_TimeValue) :
  secondsElapsed t t = zero /\ leb (secondsElapsed t t) zero = true.
Proof.
  unfold secondsElapsed. rewrite !Z.sub_diag. split; reflexivity.
Qed.

(** ** The gate of the running filter *)

Lemma preReport_skip (ts lst : OSVR_TimeValue) (f : Filter) :
  leb (secondsElapsed lst ts) zero = true ->
  preReport ts lst f = (false, lst, f).
Proof. intros H. unfold preReport. now rewrite H. Qed.

Lemma preReport_accept (ts lst : OSVR_TimeValue) (f : Filter) :
  leb (secondsElapsed lst ts) zero = false ->
  preReport ts lst f = (true, ts, predict (secondsElapsed lst ts) f).
Proof. intros H. unfold preReport. now rewrite H. Qed.

Lemma handleIMUReport_skip ts report rd :
  leb (secondsElapsed (m_lastIMU rd) ts) zero = true ->
  handleIMUReport ts report rd =
  mkRunningData (m_filter rd) (m_imuError rd) (m_cameraError rd) (rd_cTr rd)
    (fromQuat (or_rotation report)) (m_lastPosition rd) (m_lastIMU rd).
Proof.
  intros H. unfold handleIMUReport. now rewrite (preReport_skip _ _ _ H).
Qed.

Lemma handleIMUReport_accept ts report rd :
  leb (secondsElapsed (m_lastIMU rd) ts) zero = false ->
  handleIMUReport ts report rd =
  mkRunningData
    (correctOrientation
       (mkOriMeas (fromQuat (or_rotation report)) (asDiagonal (m_imuError rd)))
       (predict (secondsElapsed (m_lastIMU rd) ts) (m_filter rd)))
    (m_imuError rd) (m_cameraError rd) (rd_cTr rd)
    (fromQuat (or_rotation report)) (m_lastPosition rd) ts.
Proof.
  intros H. unfold handleIMUReport. now rewrite (preReport_accept _ _ _ H).
Qed.

Lemma handleVideoTrackerReport_skip ts report rd :
  leb (secondsElapsed (m_lastPosition rd) ts) zero = true ->
  handleVideoTrackerReport ts report rd =
  mkRunningData (m_filter rd) (m_imuError rd) (m_cameraError rd) (rd_cTr rd)
    (m_orientation rd) (m_lastPosition rd) (m_lastIMU rd).
Proof.
  intros H. unfold handleVideoTrackerReport.
  now rewrite (preReport_skip _ _ _ H).
Qed.

Lemma handleVideoTrackerReport_accept ts report rd :
  leb (secondsElapsed (m_lastPosition rd) ts) zero = false ->
  handleVideoTrackerReport ts report rd =
  mkRunningData
    (correctPose
       (mkPoseMeas
          (iso_translation (takeCameraPoseToRoom (rd_cTr rd) (pr_pose report)))
          (quat_of_matrix
             (iso_rotation (takeCameraPoseToRoom (rd_cTr rd) (pr_pose report))))
          (asDiagonal (m_cameraError rd)))
       (predict (secondsElapsed (m_lastPosition rd) ts) (m_filter rd)))
    (m_imuError rd) (m_cameraError rd) (rd_cTr rd)
    (m_orientation rd) ts (m_lastIMU rd).
Proof.
  intros H. unfold handleVideoTrackerReport.
  now rewrite (preReport_accept _ _ _ H).
Qed.

(** ** The handlers in the Running state *)

Lemma handleIMUData_running ts report c rd :
  m_state c = Running ->
  m_runningData c = Some rd ->
  handleIMUData ts report c =
  Done (withRunningData (handleIMUReport ts report rd) c,
        [mkEmission (fusedPose (handleIMUReport ts report rd))
           FUSED_SENSOR_ID ts]).
Proof.
  intros Hs Hrd. unfold handleIMUData. rewrite Hs, Hrd. reflexivity.
Qed.

Lemma handleVideoTrackerData_running ifs ts report c rd :
  m_state c = Running ->
  m_runningData c = Some rd ->
  handleVideoTrackerData ndebug ifs ts report c =
  Done (withRunningData (handleVideoTrackerReport ts report rd) c,
        [mkEmission (fusedPose (handleVideoTrackerReport ts report rd))
           FUSED_SENSOR_ID ts;
         mkEmission
           (toPose (takeCameraPoseToRoom
                      (rd_cTr (handleVideoTrackerReport ts report rd))
                      (pr_pose report)))
           TRANSFORMED_VIDEO_SENSOR_ID ts]).
Proof.
  intros Hs Hrd. unfold handleVideoTrackerData. rewrite Hs, Hrd. reflexivity.
Qed.

Lemma handleVideoTrackerReport_cTr ts report rd :
  rd_cTr (handleVideoTrackerReport ts report rd) = rd_cTr rd.
Proof.
  unfold handleVideoTrackerReport.
  destruct (preReport ts (m_lastPosition rd) (m_filter rd)) as [[ok l] f].
  reflexivity.
Qed.

(** ** Reports in the Running state *)

(** C4. In the Running state every report is handed to the running data;
    when the elapsed time since the same sensor's last accepted report is
    non-positive the filter (state vector, reference quaternion, error
    covariance, process model) and that sensor's last-seen timestamp are
    left as they were, so neither [predict] nor [correct] ran; when it is
    positive the filter becomes [correct(meas)] of [predict(dt)] of the
    old filter, with the measurement built from the report, and the
    sensor's last-seen timestamp becomes the report's timestamp. *)
Theorem running_report_gate :
  forall (c : VideoIMUFusion) (rd : RunningData) (ifs : ClientInterfaces)
         (ts : OSVR_TimeValue)
         (imu : OSVR_OrientationReport) (video : OSVR_PoseReport),
    m_state c = Running ->
    m_runningData c = Some rd ->
    let dt_imu := secondsElapsed (m_lastIMU rd) ts in
    let dt_video := secondsElapsed (m_lastPosition rd) ts in
    let roomPose := takeCameraPoseToRoom (rd_cTr rd) (pr_pose video) in
    (exists rd' out,
        handleIMUData ts imu c = Done (withRunningData rd' c, out) /\
        (leb dt_imu zero = true ->
           m_filter rd' = m_filter rd /\ m_lastIMU rd' = m_lastIMU rd) /\
        (ltb zero dt_imu = true ->
           m_filter rd' =
             correctOrientation
               (mkOriMeas (fromQuat (or_rotation imu))
                          (asDiagonal (m_imuError rd)))
               (predict dt_imu (m_filter rd)) /\
           m_lastIMU rd' = ts)) /\
    (exists rd' out,
        handleVideoTrackerData ndebug ifs ts video c
          = Done (withRunningData rd' c, out) /\
        (leb dt_video zero = true ->
           m_filter rd' = m_filter rd /\
           m_lastPosition rd' = m_lastPosition rd) /\
        (ltb zero dt_video = true ->
           m_filter rd' =
             correctPose
               (mkPoseMeas (iso_translation roomPose)
                           (quat_of_matrix (iso_rotation roomPose))
                           (asDiagonal (m_cameraError rd)))
               (predict dt_video (m_filter rd)) /\
           m_lastPosition rd' = ts)).
Proof.
  intros c rd ifs ts imu video Hs Hrd dt_imu dt_video roomPose. split.
  - exists (handleIMUReport ts imu rd). eexists. split.
    + apply handleIMUData_running; assumption.
    + split; intros H.
      * rewrite (handleIMUReport_skip _ _ _ H). now split.
      * apply positive_not_nonpositive in H.
        rewrite (handleIMUReport_accept _ _ _ H). now split.
  - exists (handleVideoTrackerReport ts video rd). eexists. split.
    + apply handleVideoTrackerData_running; assumption.
    + split; intros H.
      * rewrite (handleVideoTrackerReport_skip _ _ _ H). now split.
      * apply positive_not_nonpositive in H.
        rewrite (handleVideoTrackerReport_accept _ _ _ H). now split.
Qed.

(** C2, as the code has it. In the Running state every report, skipped or
    not, sends exactly one fused pose on the primary channel: the filter's
    quaternion and position after the report was handled, with the
    report's timestamp.  For a skipped report that is the pose the filter
    already had. *)
Theorem fused_pose_once_per_report :
  forall (c : VideoIMUFusion) (rd : RunningData) (ifs : ClientInterfaces)
         (ts : OSVR_TimeValue)
         (imu : OSVR_OrientationReport) (video : OSVR_PoseReport),
    m_state c = Running ->
    m_runningData c = Some rd ->
    (exists rd' out,
        handleIMUData ts imu c = Done (withRunningData rd' c, out) /\
        on_primary_channel out
          = [mkEmission
               (mkPose3 (getPosition (state (m_filter rd')))
                        (toQuat (getQuaternion (state (m_filter rd')))))
               FUSED_SENSOR_ID ts] /\
        (leb (secondsElapsed (m_lastIMU rd) ts) zero = true ->
           m_filter rd' = m_filter rd)) /\
    (exists rd' out,
        handleVideoTrackerData ndebug ifs ts video c
          = Done (withRunningData rd' c, out) /\
        on_primary_channel out
          = [mkEmission
               (mkPose3 (getPosition (state (m_filter rd')))
                        (toQuat (getQuaternion (state (m_filter rd')))))
               FUSED_SENSOR_ID ts] /\
        (leb (secondsElapsed (m_lastPosition rd) ts) zero = true ->
           m_filter rd' = m_filter rd)).
Proof.
  intros c rd ifs ts imu video Hs Hrd. split.
  - exists (handleIMUReport ts imu rd). eexists. split; [|split].
    + apply handleIMUData_running; assumption.
    + reflexivity.
    + intros H. now rewrite (handleIMUReport_skip _ _ _ H).
  - exists (handleVideoTrackerReport ts video rd). eexists. split; [|split].
    + apply handleVideoTrackerData_running; assumption.
    + reflexivity.
    + intros H. now rewrite (handleVideoTrackerReport_skip _ _ _ H).
Qed.

(** ** Reports while acquiring the camera pose *)

Lemma handleIMUData_not_running ts imu c :
  m_state c <> Running -> handleIMUData ts imu c = Done (c, []).
Proof.
  intros Hs. unfold handleIMUData.
  destruct (m_state c); [reflexivity | contradiction].
Qed.

(** C10. An orientation report that arrives while the controller is not
    in the Running state leaves the controller as it was and sends
    nothing; whatever reports follow, the stream behaves as if that report
    had not been delivered.  (The orientation that calibration uses is the
    one read from the IMU interface while a pose report is handled.) *)
Theorem imu_report_ignored_until_running :
  forall (c : VideoIMUFusion) (ifs : ClientInterfaces) (ts : OSVR_TimeValue)
         (imu : OSVR_OrientationReport) (ds : list Delivery),
    m_state c <> Running ->
    handleIMUData ts imu c = Done (c, []) /\
    run ndebug ((ifs, IMUReport ts imu) :: ds) c = run ndebug ds c.
Proof.
  intros c ifs ts imu ds Hs.
  pose proof (handleIMUData_not_running ts imu c Hs) as H.
  split; [exact H|].
  simpl. unfold deliver. simpl. rewrite H. simpl.
  destruct (run ndebug ds c) as [[c' out] | |]; reflexivity.
Qed.

Lemma handleVideoTrackerData_no_orientation ifs ts video c :
  m_state c = AcquiringCameraPose ->
  imu_state ifs = None ->
  handleVideoTrackerData ndebug ifs ts video c = Done (c, []).
Proof.
  intros Hs Himu.
  unfold handleVideoTrackerData, handleVideoTrackerDataDuringStartup,
    osvrGetOrientationState.
  rewrite Hs, Himu. reflexivity.
Qed.

(** C8. While acquiring, a pose report that finds no orientation state on
    the IMU interface is dropped: the callback completes, the controller
    (state, sample counter, low-pass filters, last-sample timestamp) is
    what it was, and nothing is sent. *)
Theorem pose_report_without_orientation_dropped :
  forall (c : VideoIMUFusion) (ifs : ClientInterfaces)
         (ts : OSVR_TimeValue) (video : OSVR_PoseReport),
    m_state c = AcquiringCameraPose ->
    imu_state ifs = None ->
    handleVideoTrackerData ndebug ifs ts video c = Done (c, []).
Proof.
  intros c ifs ts video Hs Himu.
  now apply handleVideoTrackerData_no_orientation.
Qed.

(** ** The accumulator *)

Lemma startup_dt_nonpositive sd ts :
  leb (secondsElapsed (last sd) ts) zero = true -> startup_dt sd ts = one.
Proof. intros H. unfold startup_dt. now rewrite H. Qed.

Lemma startup_dt_positive sd ts :
  ltb zero (secondsElapsed (last sd) ts) = true ->
  startup_dt sd ts = secondsElapsed (last sd) ts.
Proof.
  intros H. unfold startup_dt. now rewrite (positive_not_nonpositive _ H).
Qed.

Lemma wrap_size_t_small (z : Z) : 0 <= z < 2 ^ 64 -> wrap_size_t z = z.
Proof. intros H. unfold wrap_size_t. now apply Z.mod_small. Qed.

Lemma handleVideoTrackerData_accepting ifs ts video c sd imuTs imuState :
  m_state c = AcquiringCameraPose ->
  m_startupData c = Some sd ->
  imu_state ifs = Some (imuTs, imuState) ->
  handleVideoTrackerData ndebug ifs ts video c =
  let sd' := sd_handleReport ts video imuState sd in
  if finished sd' then
    c' <- enterRunningState ndebug ifs (getRoomToCamera sd')
            (withStartupData sd' c) ;;
    Done (c', [])
  else Done (withStartupData sd' c, []).
Proof.
  intros Hs Hsd Himu.
  unfold handleVideoTrackerData, handleVideoTrackerDataDuringStartup,
    osvrGetOrientationState.
  rewrite Hs, Himu, Hsd. reflexivity.
Qed.

(** C6. While acquiring, a pose report that finds an orientation state is
    accepted: the candidate is the inverse of the reported transform
    composed with the rigid transform of that orientation; its
    translation goes through the position filter and its rotation through
    the orientation filter; the counter grows by one and the report's
    timestamp becomes the last-sample timestamp.  The controller then
    keeps this accumulator, or hands its estimate to the Running state
    when the counter has reached the threshold. *)
Theorem accepted_pose_report_accumulates :
  forall (c : VideoIMUFusion) (sd : StartupData) (ifs : ClientInterfaces)
         (ts imuTs : OSVR_TimeValue) (imuState : OSVR_OrientationState)
         (video : OSVR_PoseReport),
    m_state c = AcquiringCameraPose ->
    m_startupData c = Some sd ->
    imu_state ifs = Some (imuTs, imuState) ->
    0 <= reports sd < REQUIRED_SAMPLES ->
    let candidate :=
      iso_mul (iso_inverse (fromPose (pr_pose video)))
              (iso_of_quat (fromQuat imuState)) in
    let dt := startup_dt sd ts in
    let sd' := sd_handleReport ts video imuState sd in
    positionFilter sd'
      = filterVec dt (iso_translation candidate) (positionFilter sd) /\
    orientationFilter sd'
      = filterQuat dt (quat_of_matrix (iso_rotation candidate))
          (orientationFilter sd) /\
    reports sd' = reports sd + 1 /\
    last sd' = ts /\
    handleVideoTrackerData ndebug ifs ts video c =
      if finished sd' then
        c' <- enterRunningState ndebug ifs (getRoomToCamera sd')
                (withStartupData sd' c) ;;
        Done (c', [])
      else Done (withStartupData sd' c, []).
Proof.
  intros c sd ifs ts imuTs imuState video Hs Hsd Himu Hn candidate dt sd'.
  repeat split.
  - simpl. apply wrap_size_t_small. unfold REQUIRED_SAMPLES in Hn. lia.
  - now apply handleVideoTrackerData_accepting with (imuTs := imuTs).
Qed.

(** C7, as the code has it. The elapsed time the accumulator feeds to both
    low-pass filters is measured from its last-sample timestamp to the
    report's timestamp; a fresh accumulator starts with the wall-clock time
    of its construction as last-sample timestamp, so the first sample is
    measured from there.  A non-positive elapsed time is replaced by 1, a
    positive one is passed on; in both cases the sample is counted and its
    timestamp recorded. *)
Theorem accumulator_elapsed_time :
  forall (now ts : OSVR_TimeValue) (sd : StartupData)
         (video : OSVR_PoseReport) (imuState : OSVR_OrientationState),
    let elapsed := secondsElapsed (last sd) ts in
    let candidate := candidate_cTr video imuState in
    let sd' := sd_handleReport ts video imuState sd in
    last (newStartupData now) = now /\
    reports (newStartupData now) = 0 /\
    reports sd' = wrap_size_t (reports sd + 1) /\
    last sd' = ts /\
    (leb elapsed zero = true ->
       positionFilter sd'
         = filterVec one (iso_translation candidate) (positionFilter sd) /\
       orientationFilter sd'
         = filterQuat one (quat_of_matrix (iso_rotation candidate))
             (orientationFilter sd)) /\
    (ltb zero elapsed = true ->
       positionFilter sd'
         = filterVec elapsed (iso_translation candidate) (positionFilter sd) /\
       orientationFilter sd'
         = filterQuat elapsed (quat_of_matrix (iso_rotation candidate))
             (orientationFilter sd)).
Proof.
  intros now ts sd video imuState elapsed candidate sd'.
  do 4 (split; [reflexivity|]).
  subst sd'; unfold sd_handleReport; simpl.
  split; intros H.
  - now rewrite (startup_dt_nonpositive _ _ H).
  - now rewrite (startup_dt_positive _ _ H).
Qed.

(** ** Seeding the running filter *)

(** C1, as the code has it. The running filter starts with every
    noise-autocorrelation coefficient of the default process model
    multiplied by 0.5, whatever the arguments of the constructor; the
    transition to Running installs such a filter. *)
Theorem startup_halves_noise_autocorrelation :
  forall (cTr : Isometry3d) (initialIMU : OSVR_OrientationState)
         (initialVideo : OSVR_PoseState)
         (lastPosition lastIMU : OSVR_TimeValue)
         (ifs : ClientInterfaces) (c c' : VideoIMUFusion),
    noiseAutocorrelation
      (processModel
         (m_filter
            (newRunningData cTr initialIMU initialVideo lastPosition lastIMU)))
      = map (fun q => mul q half)
          (noiseAutocorrelation (processModel defaultFilter)) /\
    (enterRunningState ndebug ifs cTr c = Done c' ->
     exists rd,
       m_runningData c' = Some rd /\
       noiseAutocorrelation (processModel (m_filter rd))
         = map (fun q => mul q half)
             (noiseAutocorrelation (processModel defaultFilter))).
Proof.
  intros cTr initialIMU initialVideo lastPosition lastIMU ifs c c'.
  split; [reflexivity|].
  unfold enterRunningState, osvrGetOrientationState, osvrGetPoseState.
  destruct (imu_state ifs) as [[t1 s1]|], (video_state ifs) as [[t2 s2]|];
    destruct ndebug; simpl; intros H; try discriminate;
    injection H as <-; eexists; split; reflexivity.
Qed.

Lemma unit_diagonal_12 (i j : nat) :
  (i < 12)%nat -> (j < 12)%nat ->
  nth j (nth i (asDiagonal InitialStateError) []) zero
    = if Nat.eqb i j then one else zero.
Proof.
  intros Hi Hj.
  do 12 (destruct i as [|i];
         [do 12 (destruct j as [|j]; [reflexivity|]); lia|]).
  lia.
Qed.

Lemma enterRunningState_available ifs cTr c imuTs imuState posTs videoState :
  imu_state ifs = Some (imuTs, imuState) ->
  video_state ifs = Some (posTs, videoState) ->
  enterRunningState ndebug ifs cTr c =
  Done (mkController Running cTr None
          (Some (newRunningData cTr imuState videoState posTs imuTs))).
Proof.
  intros Hi Hv. unfold enterRunningState, osvrGetOrientationState,
    osvrGetPoseState, BOOST_ASSERT_MSG.
  rewrite Hi, Hv. now rewrite !orb_true_r.
Qed.

(** C5. The pose report that completes the calibration installs a filter
    whose state vector is zero except for its position block, which is
    the translation of the smoothed camera-to-room transform composed with
    the pose state of the video interface; whose reference quaternion is
    the rotation of that composed pose; and whose error covariance is the
    12 x 12 diagonal matrix with ones on the diagonal. *)
Theorem running_filter_seed :
  forall (c : VideoIMUFusion) (sd : StartupData) (ifs : ClientInterfaces)
         (ts imuTs posTs : OSVR_TimeValue)
         (imuState : OSVR_OrientationState) (videoState : OSVR_PoseState)
         (video : OSVR_PoseReport),
    m_state c = AcquiringCameraPose ->
    m_startupData c = Some sd ->
    imu_state ifs = Some (imuTs, imuState) ->
    video_state ifs = Some (posTs, videoState) ->
    finished (sd_handleReport ts video imuState sd) = true ->
    let cTr := getRoomToCamera (sd_handleReport ts video imuState sd) in
    let roomPose := iso_mul cTr (fromPose videoState) in
    exists rd,
      handleVideoTrackerData ndebug ifs ts video c
        = Done (mkController Running cTr None (Some rd), []) /\
      stateVector (state (m_filter rd))
        = coeffs3 (iso_translation roomPose) ++ repeat zero 9 /\
      getPosition (state (m_filter rd)) = iso_translation roomPose /\
      getQuaternion (state (m_filter rd))
        = quat_of_matrix (iso_rotation roomPose) /\
      length (errorCovariance (state (m_filter rd))) = 12%nat /\
      (forall i j : nat, (i < 12)%nat -> (j < 12)%nat ->
         nth j (nth i (errorCovariance (state (m_filter rd))) []) zero
           = if Nat.eqb i j then one else zero).
Proof.
  intros c sd ifs ts imuTs posTs imuState videoState video
    Hs Hsd Himu Hvid Hfin cTr roomPose.
  exists (newRunningData cTr imuState videoState posTs imuTs).
  split.
  - rewrite (handleVideoTrackerData_accepting _ _ _ _ _ _ _ Hs Hsd Himu).
    cbv zeta. rewrite Hfin.
    now rewrite (enterRunningState_available _ _ _ _ _ _ _ Himu Hvid).
  - repeat split.
    + simpl. unfold getPosition, positionBlock. simpl.
      now destruct (iso_translation _).
    + apply unit_diagonal_12.
Qed.

(** ** The lifecycle over streams of reports *)

Lemma accepted_cons (d : Delivery) (ds : list Delivery) :
  accepted (d :: ds) = (if accepted_sample d then 1 else 0) + accepted ds.
Proof.
  unfold accepted. simpl. destruct (accepted_sample d); simpl length; lia.
Qed.

Lemma accepted_nonneg (ds : list Delivery) : 0 <= accepted ds.
Proof. unfold accepted. lia. Qed.

Lemma lifecycle_inv_payload (c : VideoIMUFusion) :
  lifecycle_inv c -> exactly_one_payload c.
Proof.
  unfold lifecycle_inv, exactly_one_payload. destruct (m_state c).
  - intros [[sd [Hsd _]] Hrd]. split; [rewrite Hsd; discriminate | exact Hrd].
  - intros [Hsd [rd Hrd]]. split; [exact Hsd | rewrite Hrd; discriminate].
Qed.

Lemma newVideoIMUFusion_inv now s0 cTr0 :
  lifecycle_inv (newVideoIMUFusion now s0 cTr0).
Proof.
  unfold lifecycle_inv. simpl. split; [|reflexivity].
  eexists. split; [reflexivity|]. simpl. unfold REQUIRED_SAMPLES. lia.
Qed.

(** In the Running state a callback completes and the state stays
    Running. *)
Lemma deliver_running (d : Delivery) (c : VideoIMUFusion) :
  m_state c = Running ->
  lifecycle_inv c ->
  exists c' out,
    deliver ndebug d c = Done (c', out) /\
    m_state c' = Running /\ lifecycle_inv c'.
Proof.
  intros Hs Hinv. pose proof Hinv as Hinv'.
  unfold lifecycle_inv in Hinv'. rewrite Hs in Hinv'.
  destruct Hinv' as [Hsd [rd Hrd]].
  destruct d as [ifs [ts r | ts r]]; unfold deliver; simpl.
  - rewrite (handleIMUData_running _ _ _ _ Hs Hrd).
    do 2 eexists. split; [reflexivity|]. split; [exact Hs|].
    unfold lifecycle_inv. simpl. rewrite Hs. split; [exact Hsd | eauto].
  - rewrite (handleVideoTrackerData_running _ _ _ _ _ Hs Hrd).
    do 2 eexists. split; [reflexivity|]. split; [exact Hs|].
    unfold lifecycle_inv. simpl. rewrite Hs. split; [exact Hsd | eauto].
Qed.

(** While acquiring, a callback either completes, leaving a controller
    that counted the delivery if it was an accepted sample and that is
    Running exactly if the count reached the threshold, or it stops on the
    assertion about the pose state. *)
Lemma deliver_acquiring (d : Delivery) (c : VideoIMUFusion) :
  m_state c = AcquiringCameraPose ->
  lifecycle_inv c ->
  (exists c' out,
      deliver ndebug d c = Done (c', out) /\
      lifecycle_inv c' /\
      let n := counted c + (if accepted_sample d then 1 else 0) in
      if REQUIRED_SAMPLES <=? n then m_state c' = Running
      else m_state c' = AcquiringCameraPose /\ counted c' = n) \/
  (deliver ndebug d c = AssertionFailed /\
   ndebug = false /\ ~ pose_state_available d).
Proof.
  intros Hs Hinv. pose proof Hinv as Hinv'.
  unfold lifecycle_inv in Hinv'. rewrite Hs in Hinv'.
  destruct Hinv' as [[sd [Hsd Hn]] Hrd].
  assert (Hc : counted c = reports sd) by (unfold counted; now rewrite Hsd).
  unfold REQUIRED_SAMPLES in *.
  destruct d as [ifs [ts r | ts r]]; unfold deliver, accepted_sample; simpl.
  - left. exists c, []. split.
    + apply handleIMUData_not_running. rewrite Hs. discriminate.
    + split; [exact Hinv|]. rewrite Z.add_0_r.
      destruct (Z.leb_spec 10 (counted c)); [lia | now split].
  - destruct (imu_state ifs) as [[imuTs imuState]|] eqn:Himu.
    + rewrite (handleVideoTrackerData_accepting _ _ _ _ _ _ _ Hs Hsd Himu).
      cbv zeta. unfold finished, REQUIRED_SAMPLES.
      assert (Hr : reports (sd_handleReport ts r imuState sd) = reports sd + 1)
        by (simpl; apply wrap_size_t_small; lia).
      rewrite Hr, Hc.
      destruct (Z.leb_spec 10 (reports sd + 1)) as [Hge | Hlt].
      * unfold enterRunningState, osvrGetOrientationState, osvrGetPoseState,
          pose_state_available.
        rewrite Himu. simpl.
        destruct (video_state ifs) as [[posTs videoState]|] eqn:Hvid.
        -- left. unfold BOOST_ASSERT_MSG. rewrite !orb_true_r. simpl.
           do 2 eexists. split; [reflexivity|]. split; [|reflexivity].
           unfold lifecycle_inv. simpl. eauto.
        -- unfold BOOST_ASSERT_MSG. rewrite orb_true_r, orb_false_r. simpl.
           destruct ndebug; simpl.
           ++ left. do 2 eexists. split; [reflexivity|].
              split; [|reflexivity].
              unfold lifecycle_inv. simpl. eauto.
           ++ right. repeat split. intros H. now apply H.
      * left. do 2 eexists. split; [reflexivity|]. split.
        -- unfold lifecycle_inv. simpl. rewrite Hs. split; [|exact Hrd].
           eexists. split; [reflexivity|]. rewrite Hr.
           unfold REQUIRED_SAMPLES. lia.
        -- split; [exact Hs|]. unfold counted. simpl.
           apply wrap_size_t_small. lia.
    + left. exists c, []. split.
      * now apply handleVideoTrackerData_no_orientation.
      * split; [exact Hinv|]. rewrite Z.add_0_r.
        destruct (Z.leb_spec 10 (counted c)); [lia | now split].
Qed.

Lemma run_running (ds : list Delivery) :
  forall c : VideoIMUFusion,
    m_state c = Running ->
    lifecycle_inv c ->
    exists c' out,
      run ndebug ds c = Done (c', out) /\
      m_state c' = Running /\ lifecycle_inv c'.
Proof.
  induction ds as [|d ds IH]; intros c Hs Hinv.
  - exists c, []. now repeat split.
  - destruct (deliver_running d c Hs Hinv) as [c1 [out1 [Hd [Hs1 Hinv1]]]].
    destruct (IH c1 Hs1 Hinv1) as [c2 [out2 [Hr [Hs2 Hinv2]]]].
    exists c2, (out1 ++ out2). simpl. rewrite Hd. simpl. rewrite Hr. simpl.
    now repeat split.
Qed.

(** A stream of reports either runs to completion, and then the controller
    is Running exactly if the samples counted before plus those accepted
    from the stream reach the threshold, or it stops on the assertion
    about the pose state. *)
Lemma run_acquiring (ds : list Delivery) :
  forall c : VideoIMUFusion,
    m_state c = AcquiringCameraPose ->
    lifecycle_inv c ->
    (exists c' out,
        run ndebug ds c = Done (c', out) /\
        lifecycle_inv c' /\
        if REQUIRED_SAMPLES <=? counted c + accepted ds
        then m_state c' = Running
        else m_state c' = AcquiringCameraPose /\
             counted c' = counted c + accepted ds) \/
    (run ndebug ds c = AssertionFailed /\
     ndebug = false /\ ~ Forall pose_state_available ds).
Proof.
  induction ds as [|d ds IH]; intros c Hs Hinv.
  - left. exists c, []. split; [reflexivity|]. split; [exact Hinv|].
    unfold accepted. simpl. rewrite Z.add_0_r.
    pose proof Hinv as Hinv'. unfold lifecycle_inv in Hinv'.
    rewrite Hs in Hinv'. destruct Hinv' as [[sd [Hsd Hn]] _].
    unfold counted. rewrite Hsd.
    destruct (Z.leb_spec REQUIRED_SAMPLES (reports sd)); [lia | now split].
  - rewrite accepted_cons.
    destruct (deliver_acquiring d c Hs Hinv)
      as [[c1 [out1 [Hd [Hinv1 Hst]]]] | [Hd [Hnd Hna]]].
    + cbv zeta in Hst.
      pose proof (accepted_nonneg ds) as Hnn.
      destruct (Z.leb_spec REQUIRED_SAMPLES
                  (counted c + (if accepted_sample d then 1 else 0)))
        as [Hge | Hlt].
      * destruct (run_running ds c1 Hst Hinv1) as [c2 [out2 [Hr [Hs2 Hinv2]]]].
        left. exists c2, (out1 ++ out2). simpl. rewrite Hd. simpl.
        rewrite Hr. simpl. split; [reflexivity|]. split; [exact Hinv2|].
        destruct (Z.leb_spec REQUIRED_SAMPLES
                    (counted c + ((if accepted_sample d then 1 else 0)
                                  + accepted ds))); [exact Hs2 | lia].
      * destruct Hst as [Hs1 Hc1].
        destruct (IH c1 Hs1 Hinv1)
          as [[c2 [out2 [Hr [Hinv2 Hst2]]]] | [Hr [Hnd Hna]]].
        -- left. exists c2, (out1 ++ out2). simpl. rewrite Hd. simpl.
           rewrite Hr. simpl. split; [reflexivity|]. split; [exact Hinv2|].
           rewrite Hc1 in Hst2. now rewrite Z.add_assoc.
        -- right. simpl. rewrite Hd. simpl. rewrite Hr. simpl.
           repeat split; [exact Hnd|]. intros HF. apply Hna.
           now inversion HF.
    + right. simpl. rewrite Hd. simpl. repeat split; [exact Hnd|].
      intros HF. apply Hna. now inversion HF.
Qed.

(** C3. The constructed controller is in AcquiringCameraPose.  After any
    stream of reports it is Running exactly if the stream held at least
    ten accepted samples, and while it is still acquiring its counter is
    the number of accepted samples; so the state changes at the tenth
    accepted sample and at no other report.  From Running, every further
    stream of reports runs to completion and leaves it Running. *)
Theorem lifecycle :
  forall (now : OSVR_TimeValue) (s0 : State) (cTr0 : Isometry3d)
         (ds ds' : list Delivery),
    Forall pose_state_available ds ->
    let c0 := newVideoIMUFusion now s0 cTr0 in
    m_state c0 = AcquiringCameraPose /\
    exists c out,
      run ndebug ds c0 = Done (c, out) /\
      (m_state c = Running <-> REQUIRED_SAMPLES <= accepted ds) /\
      (m_state c = AcquiringCameraPose ->
       exists sd, m_startupData c = Some sd /\ reports sd = accepted ds) /\
      (m_state c = Running ->
       exists c' out',
         run ndebug ds' c = Done (c', out') /\ m_state c' = Running).
Proof.
  intros now s0 cTr0 ds ds' Hav c0. split; [reflexivity|].
  destruct (run_acquiring ds c0 eq_refl (newVideoIMUFusion_inv now s0 cTr0))
    as [[c [out [Hr [Hinv Hst]]]] | [_ [_ Hna]]]; [|contradiction].
  exists c, out. split; [exact Hr|].
  assert (H0 : counted c0 = 0) by reflexivity. rewrite H0, Z.add_0_l in Hst.
  destruct (Z.leb_spec REQUIRED_SAMPLES (accepted ds)) as [Hge | Hlt].
  - split; [tauto|]. split.
    + rewrite Hst. discriminate.
    + intros _. destruct (run_running ds' c Hst Hinv) as [c' [out' [H1 [H2 _]]]].
      eauto.
  - destruct Hst as [Hs Hc]. split; [|split].
    + rewrite Hs. split; [discriminate | lia].
    + intros _. unfold lifecycle_inv in Hinv. rewrite Hs in Hinv.
      destruct Hinv as [[sd [Hsd _]] _]. exists sd. split; [exact Hsd|].
      unfold counted in Hc. now rewrite Hsd in Hc.
    + rewrite Hs. discriminate.
Qed.

(** C9. After any stream of reports delivered to the constructed
    controller, the controller holds the payload of its state and no
    other: the accumulator and no running data while acquiring, the
    running data and no accumulator once running.  No callback
    dereferences an empty pointer, and the only way a stream does not run
    to completion is the assertion about the pose state, when assertions
    are compiled in. *)
Theorem one_payload_between_callbacks :
  forall (now : OSVR_TimeValue) (s0 : State) (cTr0 : Isometry3d)
         (ds : list Delivery),
    match run ndebug ds (newVideoIMUFusion now s0 cTr0) with
    | Done (c, _) => exactly_one_payload c
    | AssertionFailed => ndebug = false
    | NullDereference => False
    end.
Proof.
  intros now s0 cTr0 ds.
  destruct (run_acquiring ds (newVideoIMUFusion now s0 cTr0) eq_refl
              (newVideoIMUFusion_inv now s0 cTr0))
    as [[c [out [Hr [Hinv _]]]] | [Hr [Hnd _]]]; rewrite Hr.
  - now apply lifecycle_inv_payload.
  - exact Hnd.
Qed.

(** ** Further properties of the accumulator *)

(** X1. Whatever the timestamps, the elapsed time that reaches the two
    low-pass filters is never zero nor negative: both filters are fed with
    one same value that fails the test [dt <= 0]. *)
Theorem accumulator_filters_never_fed_nonpositive :
  forall (sd : StartupData) (ts : OSVR_TimeValue) (video : OSVR_PoseReport)
         (imuState : OSVR_OrientationState),
    exists dt : double,
      leb dt zero = false /\
      (forall sgn : bool, dt <> S754_zero sgn) /\
      positionFilter (sd_handleReport ts video imuState sd)
        = filterVec dt
            (iso_translation (candidate_cTr video imuState))
            (positionFilter sd) /\
      orientationFilter (sd_handleReport ts video imuState sd)
        = filterQuat dt
            (quat_of_matrix (iso_rotation (candidate_cTr video imuState)))
            (orientationFilter sd).
Proof.
  intros sd ts video imuState. exists (startup_dt sd ts).
  assert (H : leb (startup_dt sd ts) zero = false).
  { unfold startup_dt.
    destruct (leb (secondsElapsed (last sd) ts) zero) eqn:Hdt;
      [reflexivity | exact Hdt]. }
  split; [exact H|]. split; [|split; reflexivity].
  intros sgn Hz. rewrite Hz in H. destruct sgn; discriminate H.
Qed.

(** ** Further properties of the running data *)

Lemma handleIMUReport_frame ts report rd :
  m_lastPosition (handleIMUReport ts report rd) = m_lastPosition rd /\
  m_imuError (handleIMUReport ts report rd) = m_imuError rd /\
  m_cameraError (handleIMUReport ts report rd) = m_cameraError rd /\
  rd_cTr (handleIMUReport ts report rd) = rd_cTr rd /\
  m_orientation (handleIMUReport ts report rd) = fromQuat (or_rotation report).
Proof.
  unfold handleIMUReport.
  destruct (preReport ts (m_lastIMU rd) (m_filter rd)) as [[ok l] f].
  repeat split.
Qed.

Lemma handleVideoTrackerReport_frame ts report rd :
  m_lastIMU (handleVideoTrackerReport ts report rd) = m_lastIMU rd /\
  m_imuError (handleVideoTrackerReport ts report rd) = m_imuError rd /\
  m_cameraError (handleVideoTrackerReport ts report rd) = m_cameraError rd /\
  rd_cTr (handleVideoTrackerReport ts report rd) = rd_cTr rd /\
  m_orientation (handleVideoTrackerReport ts report rd) = m_orientation rd.
Proof.
  unfold handleVideoTrackerReport.
  destruct (preReport ts (m_lastPosition rd) (m_filter rd)) as [[ok l] f].
  repeat split.
Qed.

Lemma handleIMUReport_lastIMU ts report rd :
  m_lastIMU (handleIMUReport ts report rd)
    = if leb (secondsElapsed (m_lastIMU rd) ts) zero then m_lastIMU rd else ts.
Proof.
  unfold handleIMUReport, preReport.
  destruct (leb (secondsElapsed (m_lastIMU rd) ts) zero); reflexivity.
Qed.

Lemma handleVideoTrackerReport_lastPosition ts report rd :
  m_lastPosition (handleVideoTrackerReport ts report rd)
    = if leb (secondsElapsed (m_lastPosition rd) ts) zero
      then m_lastPosition rd else ts.
Proof.
  unfold handleVideoTrackerReport, preReport.
  destruct (leb (secondsElapsed (m_lastPosition rd) ts) zero); reflexivity.
Qed.

(** X2. The two sensors are gated independently: an orientation report
    never moves the last-seen pose timestamp, a pose report never moves the
    last-seen orientation timestamp, and so an orientation report and a
    pose report are accepted or skipped, and leave the same two
    timestamps, cached orientation, error vectors and camera transform, in
    whichever order they arrive. *)
Theorem sensor_gates_independent :
  forall (rd : RunningData) (ti tv : OSVR_TimeValue)
         (imu : OSVR_OrientationReport) (video : OSVR_PoseReport),
    let imu_first :=
      handleVideoTrackerReport tv video (handleIMUReport ti imu rd) in
    let video_first :=
      handleIMUReport ti imu (handleVideoTrackerReport tv video rd) in
    m_lastPosition (handleIMUReport ti imu rd) = m_lastPosition rd /\
    m_lastIMU (handleVideoTrackerReport tv video rd) = m_lastIMU rd /\
    m_lastIMU imu_first = m_lastIMU video_first /\
    m_lastPosition imu_first = m_lastPosition video_first /\
    m_orientation imu_first = m_orientation video_first /\
    m_imuError imu_first = m_imuError video_first /\
    m_cameraError imu_first = m_cameraError video_first /\
    rd_cTr imu_first = rd_cTr video_first.
Proof.
  intros rd ti tv imu video imu_first video_first.
  subst imu_first video_first.
  destruct (handleIMUReport_frame ti imu rd) as [I1 [I2 [I3 [I4 I5]]]].
  destruct (handleVideoTrackerReport_frame tv video rd)
    as [V1 [V2 [V3 [V4 V5]]]].
  destruct (handleIMUReport_frame ti imu (handleVideoTrackerReport tv video rd))
    as [J1 [J2 [J3 [J4 J5]]]].
  destruct (handleVideoTrackerReport_frame tv video (handleIMUReport ti imu rd))
    as [W1 [W2 [W3 [W4 W5]]]].
  split; [exact I1|]. split; [exact V1|].
  split; [rewrite W1, !handleIMUReport_lastIMU, V1; reflexivity|].
  split; [rewrite J1, !handleVideoTrackerReport_lastPosition, I1; reflexivity|].
  split; [congruence|]. split; [congruence|]. split; congruence.
Qed.

(** ** Streams of reports in the Running state *)

Lemma run_app (ds1 ds2 : list Delivery) :
  forall c : VideoIMUFusion,
    run ndebug (ds1 ++ ds2) c =
    r1 <- run ndebug ds1 c ;;
    r2 <- run ndebug ds2 (fst r1) ;;
    Done (fst r2, snd r1 ++ snd r2).
Proof.
  induction ds1 as [|d ds1 IH]; intros c; simpl.
  - destruct (run ndebug ds2 c) as [[c2 out2] | |]; reflexivity.
  - destruct (deliver ndebug d c) as [[c1 out1] | |]; simpl; try reflexivity.
    rewrite IH.
    destruct (run ndebug ds1 c1) as [[c2 out2] | |]; simpl; try reflexivity.
    destruct (run ndebug ds2 c2) as [[c3 out3] | |]; simpl; try reflexivity.
    now rewrite app_assoc.
Qed.

Lemma run_running_emissions (ds : list Delivery) :
  forall (c : VideoIMUFusion) (rd : RunningData),
    m_state c = Running ->
    m_runningData c = Some rd ->
    exists c' out rd',
      run ndebug ds c = Done (c', out) /\
      m_state c' = Running /\
      m_runningData c' = Some rd' /\
      m_cTr c' = m_cTr c /\
      m_startupData c' = m_startupData c /\
      rd_cTr rd' = rd_cTr rd /\
      map em_timestamp (on_primary_channel out)
        = map (fun d => report_timestamp (snd d)) ds /\
      on_debug_channel out = reoriented_poses (rd_cTr rd) ds /\
      length out = (length ds + length (filter is_pose_report ds))%nat.
Proof.
  induction ds as [|d ds IH]; intros c rd Hs Hrd.
  - exists c, [], rd. repeat split; assumption.
  - destruct d as [ifs [ts r | ts r]].
    + pose proof (handleIMUData_running ts r c rd Hs Hrd) as Hd.
      destruct (handleIMUReport_frame ts r rd) as [_ [_ [_ [HcTr _]]]].
      destruct (IH (withRunningData (handleIMUReport ts r rd) c)
                  (handleIMUReport ts r rd) Hs eq_refl)
        as [c' [out [rd' [Hr [Hs' [Hrd' [Hc [Hsd [Hr' [Hp [Hdbg Hlen]]]]]]]]]]].
      exists c', ([mkEmission (fusedPose (handleIMUReport ts r rd))
                     FUSED_SENSOR_ID ts] ++ out), rd'.
      split; [simpl; unfold deliver; simpl; rewrite Hd; simpl;
              rewrite Hr; reflexivity|].
      split; [exact Hs'|]. split; [exact Hrd'|]. split; [exact Hc|].
      split; [exact Hsd|]. split; [congruence|].
      split; [unfold on_primary_channel in *; simpl; rewrite Hp;
              reflexivity|].
      split; [unfold on_debug_channel in *; simpl; rewrite Hdbg, HcTr;
              reflexivity|].
      change (length (filter is_pose_report ((ifs, IMUReport ts r) :: ds)))
        with (length (filter is_pose_report ds)).
      simpl length. now rewrite Hlen.
    + pose proof (handleVideoTrackerData_running ifs ts r c rd Hs Hrd) as Hd.
      destruct (handleVideoTrackerReport_frame ts r rd)
        as [_ [_ [_ [HcTr _]]]].
      destruct (IH (withRunningData (handleVideoTrackerReport ts r rd) c)
                  (handleVideoTrackerReport ts r rd) Hs eq_refl)
        as [c' [out [rd' [Hr [Hs' [Hrd' [Hc [Hsd [Hr' [Hp [Hdbg Hlen]]]]]]]]]]].
      exists c',
        (mkEmission (fusedPose (handleVideoTrackerReport ts r rd))
           FUSED_SENSOR_ID ts
         :: mkEmission
              (toPose (takeCameraPoseToRoom
                         (rd_cTr (handleVideoTrackerReport ts r rd))
                         (pr_pose r)))
              TRANSFORMED_VIDEO_SENSOR_ID ts
         :: out), rd'.
      split; [simpl; unfold deliver; simpl; rewrite Hd; simpl;
              rewrite Hr; reflexivity|].
      split; [exact Hs'|]. split; [exact Hrd'|]. split; [exact Hc|].
      split; [exact Hsd|]. split; [congruence|].
      split; [unfold on_primary_channel in *; simpl; rewrite Hp;
              reflexivity|].
      split; [unfold on_debug_channel in *; simpl; rewrite Hdbg, !HcTr;
              reflexivity|].
      change (length (filter is_pose_report ((ifs, VideoReport ts r) :: ds)))
        with (S (length (filter is_pose_report ds))).
      simpl length. rewrite Hlen. lia.
Qed.


(** X4. From the Running state the second channel carries, for each pose
    report of the stream and in their order, the reported pose composed
    with the camera transform of the running data, with the report's
    timestamp; this does not depend on the filter nor on which reports
    were skipped, and the camera transform of the controller and of the
    running data never changes. *)
Theorem running_stream_reoriented_video :
  forall (ds : list Delivery) (c : VideoIMUFusion) (rd : RunningData),
    m_state c = Running ->
    m_runningData c = Some rd ->
    exists c' out rd',
      run ndebug ds c = Done (c', out) /\
      m_runningData c' = Some rd' /\
      on_debug_channel out = reoriented_poses (rd_cTr rd) ds /\
      rd_cTr rd' = rd_cTr rd /\
      m_cTr c' = m_cTr c.
Proof.
  intros ds c rd Hs Hrd.
  destruct (run_running_emissions ds c rd Hs Hrd)
    as [c' [out [rd' [Hr [_ [Hrd' [Hc [_ [Hr' [_ [Hdbg _]]]]]]]]]]].
  exists c', out, rd'. repeat split; assumption.
Qed.

(** ** Streams of reports before the Running state *)

Lemma deliver_acquiring_no_output (d : Delivery) (c c' : VideoIMUFusion)
    (out : list PoseEmission) :
  m_state c = AcquiringCameraPose ->
  deliver ndebug d c = Done (c', out) ->
  out = [].
Proof.
  intros Hs. destruct d as [ifs [ts r | ts r]]; unfold deliver; simpl.
  - rewrite handleIMUData_not_running by (rewrite Hs; discriminate).
    intros H. now injection H.
  - unfold handleVideoTrackerData, handleVideoTrackerDataDuringStartup.
    rewrite Hs. simpl.
    destruct (osvrGetOrientationState ifs zeroTimeValue zeroOrientationState)
      as [[ret lastIMU] imuState].
    destruct ret; simpl; [|intros H; now injection H].
    destruct (m_startupData c) as [sd|]; simpl; [|discriminate].
    destruct (finished (sd_handleReport ts r imuState sd)).
    + destruct (enterRunningState ndebug ifs _ _); simpl;
        try discriminate. intros H. now injection H.
    + intros H. now injection H.
Qed.

Lemma deliver_acquiring_below (d : Delivery) (c : VideoIMUFusion) :
  m_state c = AcquiringCameraPose ->
  lifecycle_inv c ->
  counted c + (if accepted_sample d then 1 else 0) < REQUIRED_SAMPLES ->
  exists c',
    deliver ndebug d c = Done (c', []) /\
    m_state c' = AcquiringCameraPose /\
    lifecycle_inv c' /\
    counted c' = counted c + (if accepted_sample d then 1 else 0).
Proof.
  intros Hs Hinv Hlt.
  destruct (deliver_acquiring d c Hs Hinv)
    as [[c' [out [Hd [Hinv' Hst]]]] | [Hd [_ Hna]]].
  - cbv zeta in Hst.
    destruct (Z.leb_spec REQUIRED_SAMPLES
                (counted c + (if accepted_sample d then 1 else 0)));
      [lia|].
    destruct Hst as [Hs' Hc'].
    rewrite (deliver_acquiring_no_output d c c' out Hs Hd) in Hd.
    exists c'. repeat split; assumption.
  - exfalso. revert Hd Hlt.
    pose proof Hinv as Hinv'. unfold lifecycle_inv in Hinv'.
    rewrite Hs in Hinv'. destruct Hinv' as [[sd [Hsd Hn]] _].
    assert (Hc : counted c = reports sd) by (unfold counted; now rewrite Hsd).
    unfold REQUIRED_SAMPLES in *.
    destruct d as [ifs [ts r | ts r]]; unfold deliver, accepted_sample; simpl.
    + rewrite handleIMUData_not_running by (rewrite Hs; discriminate).
      discriminate.
    + destruct (imu_state ifs) as [[imuTs imuState]|] eqn:Himu.
      * rewrite (handleVideoTrackerData_accepting _ _ _ _ _ _ _ Hs Hsd Himu).
        cbv zeta. unfold finished, REQUIRED_SAMPLES.
        assert (Hr : reports (sd_handleReport ts r imuState sd)
                     = reports sd + 1)
          by (simpl; apply wrap_size_t_small; lia).
        rewrite Hr, Hc.
        destruct (Z.leb_spec 10 (reports sd + 1)); [lia | discriminate].
      * rewrite (handleVideoTrackerData_no_orientation _ _ _ _ Hs Himu).
        discriminate.
Qed.

Lemma run_acquiring_below (ds : list Delivery) :
  forall c : VideoIMUFusion,
    m_state c = AcquiringCameraPose ->
    lifecycle_inv c ->
    counted c + accepted ds < REQUIRED_SAMPLES ->
    exists c',
      run ndebug ds c = Done (c', []) /\
      m_state c' = AcquiringCameraPose /\
      lifecycle_inv c' /\
      counted c' = counted c + accepted ds.
Proof.
  induction ds as [|d ds IH]; intros c Hs Hinv Hlt.
  - exists c. unfold accepted. simpl. rewrite Z.add_0_r. now repeat split.
  - rewrite accepted_cons in Hlt. pose proof (accepted_nonneg ds) as Hnn.
    destruct (deliver_acquiring_below d c Hs Hinv) as [c1 [Hd [Hs1 [Hinv1 Hc1]]]];
      [destruct (accepted_sample d); lia|].
    destruct (IH c1 Hs1 Hinv1) as [c2 [Hr [Hs2 [Hinv2 Hc2]]]]; [lia|].
    exists c2. simpl. rewrite Hd. simpl. rewrite Hr. simpl.
    rewrite accepted_cons. repeat split; try assumption. lia.
Qed.

(** X5. Nothing is sent before the Running state: a stream holding fewer
    than ten accepted samples runs to completion, sends no pose and leaves
    the controller acquiring; and whatever report follows it, be it the
    one that completes the calibration, sends no pose either.  The only
    other way that last callback can end is on the assertion about the
    pose state. *)
Theorem nothing_sent_until_running :
  forall (now : OSVR_TimeValue) (s0 : State) (cTr0 : Isometry3d)
         (ds : list Delivery) (d : Delivery),
    accepted ds < REQUIRED_SAMPLES ->
    (exists c,
        run ndebug ds (newVideoIMUFusion now s0 cTr0) = Done (c, []) /\
        m_state c = AcquiringCameraPose) /\
    match run ndebug (ds ++ [d]) (newVideoIMUFusion now s0 cTr0) with
    | Done (_, out) => out = []
    | AssertionFailed => ndebug = false /\ ~ pose_state_available d
    | NullDereference => False
    end.
Proof.
  intros now s0 cTr0 ds d Hlt.
  destruct (run_acquiring_below ds (newVideoIMUFusion now s0 cTr0) eq_refl
              (newVideoIMUFusion_inv now s0 cTr0))
    as [c [Hr [Hs [Hinv _]]]]; [exact Hlt|].
  split; [exists c; now split|].
  rewrite run_app, Hr. simpl.
  destruct (deliver_acquiring d c Hs Hinv)
    as [[c' [out [Hd [_ _]]]] | [Hd [Hnd Hna]]]; rewrite Hd; simpl.
  - rewrite app_nil_r. exact (deliver_acquiring_no_output d c c' out Hs Hd).
  - now split.
Qed.

(** X6. How the report that completes the calibration can end.  The
    assertion about the orientation state cannot fail, since the handler
    has just read that state.  With a pose state on the video interface
    the running data is built from it and from its timestamp.  Without
    one, a build with assertions stops on the second assertion, and a
    build without them carries on with the zero-initialised pose and
    timestamp it passed to the query. *)
Theorem calibration_completion_outcomes :
  forall (c : VideoIMUFusion) (sd : StartupData) (ifs : ClientInterfaces)
         (ts imuTs : OSVR_TimeValue) (imuState : OSVR_OrientationState)
         (video : OSVR_PoseReport),
    m_state c = AcquiringCameraPose ->
    m_startupData c = Some sd ->
    imu_state ifs = Some (imuTs, imuState) ->
    finished (sd_handleReport ts video imuState sd) = true ->
    let cTr := getRoomToCamera (sd_handleReport ts video imuState sd) in
    handleVideoTrackerData ndebug ifs ts video c =
    match video_state ifs with
    | Some (posTs, videoState) =>
        Done (mkController Running cTr None
                (Some (newRunningData cTr imuState videoState posTs imuTs)),
              [])
    | None =>
        if ndebug then
          Done (mkController Running cTr None
                  (Some (newRunningData cTr imuState zeroPoseState
                           zeroTimeValue imuTs)),
                [])
        else AssertionFailed
    end.
Proof.
  intros c sd ifs ts imuTs imuState video Hs Hsd Himu Hfin cTr.
  rewrite (handleVideoTrackerData_accepting _ _ _ _ _ _ _ Hs Hsd Himu).
  cbv zeta. rewrite Hfin.
  unfold enterRunningState, osvrGetOrientationState, osvrGetPoseState,
    BOOST_ASSERT_MSG.
  rewrite Himu.
  destruct (video_state ifs) as [[posTs videoState]|];
    destruct ndebug; reflexivity.
Qed.

(** ** What the running data keeps for good *)

Lemma run_preserves (P : VideoIMUFusion -> Prop) :
  (forall d c c' out, P c -> deliver ndebug d c = Done (c', out) -> P c') ->
  forall ds c c' out, P c -> run ndebug ds c = Done (c', out) -> P c'.
Proof.
  intros Hstep. induction ds as [|d ds IH]; intros c c' out HP; simpl.
  - intros H. injection H as <- _. exact HP.
  - destruct (deliver ndebug d c) as [[c1 out1] | |] eqn:Hd; simpl;
      try discriminate.
    destruct (run ndebug ds c1) as [[c2 out2] | |] eqn:Hr; simpl;
      try discriminate.
    intros H. injection H as <- _.
    exact (IH c1 c2 out2 (Hstep d c c1 out1 HP Hd) Hr).
Qed.

Lemma deliver_keeps_constants (d : Delivery) (c c' : VideoIMUFusion)
    (out : list PoseEmission) :
  (forall rd, m_runningData c = Some rd ->
     rd_cTr rd = m_cTr c /\
     m_imuError rd = imuErrorVector /\
     m_cameraError rd = cameraErrorVector) ->
  deliver ndebug d c = Done (c', out) ->
  forall rd, m_runningData c' = Some rd ->
    rd_cTr rd = m_cTr c' /\
    m_imuError rd = imuErrorVector /\
    m_cameraError rd = cameraErrorVector.
Proof.
  intros HP. destruct d as [ifs [ts r | ts r]]; unfold deliver; simpl.
  - unfold handleIMUData. destruct (m_state c); simpl.
    + intros H. injection H as <- _. exact HP.
    + destruct (m_runningData c) as [rd0|] eqn:Hrd; simpl; [|discriminate].
      intros H. injection H as <- _. simpl.
      intros rd Heq. injection Heq as <-.
      destruct (HP rd0 eq_refl) as [H1 [H2 H3]].
      destruct (handleIMUReport_frame ts r rd0) as [_ [F2 [F3 [F4 _]]]].
      rewrite F2, F3, F4. now repeat split.
  - unfold handleVideoTrackerData, handleVideoTrackerDataDuringStartup.
    destruct (m_state c); simpl.
    + destruct (osvrGetOrientationState ifs zeroTimeValue
                  zeroOrientationState) as [[ret lastIMU] imuState].
      destruct ret; simpl; [|intros H; injection H as <- _; exact HP].
      destruct (m_startupData c) as [sd|]; simpl; [|discriminate].
      destruct (finished (sd_handleReport ts r imuState sd)).
      * unfold enterRunningState.
        destruct (osvrGetOrientationState ifs zeroTimeValue
                    zeroOrientationState) as [[ret1 oriTs] imuState1].
        destruct (BOOST_ASSERT_MSG ndebug ret1); simpl; try discriminate.
        destruct (osvrGetPoseState ifs zeroTimeValue zeroPoseState)
          as [[ret2 posTs] videoState].
        destruct (BOOST_ASSERT_MSG ndebug ret2); simpl; try discriminate.
        intros H. injection H as <- _. simpl.
        intros rd Heq. injection Heq as <-. now repeat split.
      * intros H. injection H as <- _. exact HP.
    + destruct (m_runningData c) as [rd0|] eqn:Hrd; simpl; [|discriminate].
      intros H. injection H as <- _. simpl.
      intros rd Heq. injection Heq as <-.
      destruct (HP rd0 eq_refl) as [H1 [H2 H3]].
      destruct (handleVideoTrackerReport_frame ts r rd0)
        as [_ [F2 [F3 [F4 _]]]].
      rewrite F2, F3, F4. now repeat split.
Qed.

Lemma run_constructed_outcome now s0 cTr0 (ds : list Delivery) :
  match run ndebug ds (newVideoIMUFusion now s0 cTr0) with
  | Done (c, _) => lifecycle_inv c
  | AssertionFailed => ndebug = false
  | NullDereference => False
  end.
Proof.
  destruct (run_acquiring ds (newVideoIMUFusion now s0 cTr0) eq_refl
              (newVideoIMUFusion_inv now s0 cTr0))
    as [[c [out [Hr [Hinv _]]]] | [Hr [Hnd _]]]; rewrite Hr;
    [exact Hinv | exact Hnd].
Qed.

(** X7. After any stream of reports delivered to the constructed
    controller, the running data, when there is one, holds the camera
    transform the controller holds, and the two measurement error vectors
    the constructor computed from the fixed tables: no report changes the
    calibration or the measurement errors handed to the filter. *)
Theorem running_data_constants :
  forall (now : OSVR_TimeValue) (s0 : State) (cTr0 : Isometry3d)
         (ds : list Delivery),
    match run ndebug ds (newVideoIMUFusion now s0 cTr0) with
    | Done (c, _) =>
        forall rd, m_runningData c = Some rd ->
          rd_cTr rd = m_cTr c /\
          m_imuError rd = imuErrorVector /\
          m_cameraError rd = cameraErrorVector
    | AssertionFailed => ndebug = false
    | NullDereference => False
    end.
Proof.
  intros now s0 cTr0 ds.
  pose proof (run_constructed_outcome now s0 cTr0 ds) as Hsafe.
  destruct (run ndebug ds (newVideoIMUFusion now s0 cTr0))
    as [[c out] | |] eqn:Hr; try exact Hsafe.
  eapply (run_preserves
            (fun c => forall rd, m_runningData c = Some rd ->
               rd_cTr rd = m_cTr c /\
               m_imuError rd = imuErrorVector /\
               m_cameraError rd = cameraErrorVector)
            deliver_keeps_constants ds _ c out); [|exact Hr].
  simpl. discriminate.
Qed.

(** X8. The running data starts with the timestamps of the states it was
    seeded from, so a report that carries one of those timestamps again is
    skipped: the filter stays the seeded one, and the fused pose sent for
    it is the seed, the translation and the rotation of the camera
    transform composed with the seeding pose. *)
Theorem seed_timestamp_replay_skipped :
  forall (cTr : Isometry3d) (imuState : OSVR_OrientationState)
         (videoState : OSVR_PoseState) (posTs imuTs : OSVR_TimeValue)
         (imu : OSVR_OrientationReport) (video : OSVR_PoseReport),
    let rd := newRunningData cTr imuState videoState posTs imuTs in
    let roomPose := iso_mul cTr (fromPose videoState) in
    let seed :=
      mkPose3 (iso_translation roomPose)
              (toQuat (quat_of_matrix (iso_rotation roomPose))) in
    m_lastIMU rd = imuTs /\
    m_lastPosition rd = posTs /\
    m_filter (handleIMUReport imuTs imu rd) = m_filter rd /\
    m_filter (handleVideoTrackerReport posTs video rd) = m_filter rd /\
    fusedPose (handleIMUReport imuTs imu rd) = seed /\
    fusedPose (handleVideoTrackerReport posTs video rd) = seed.
Proof.
  intros cTr imuState videoState posTs imuTs imu video rd roomPose seed.
  assert (Hi : m_filter (handleIMUReport imuTs imu rd) = m_filter rd).
  { rewrite handleIMUReport_skip; [reflexivity|].
    exact (proj2 (secondsElapsed_same imuTs)). }
  assert (Hv : m_filter (handleVideoTrackerReport posTs video rd)
               = m_filter rd).
  { rewrite handleVideoTrackerReport_skip; [reflexivity|].
    exact (proj2 (secondsElapsed_same posTs)). }
  assert (Hseed : fusedPose rd = seed).
  { unfold fusedPose, rd_getPosition, getOrientation, getPosition,
      positionBlock, seed, roomPose. simpl.
    now destruct (iso_translation _). }
  split; [reflexivity|]. split; [reflexivity|].
  split; [exact Hi|]. split; [exact Hv|].
  unfold fusedPose, rd_getPosition, getOrientation in *.
  rewrite Hi, Hv. now split.
Qed.

(** ** Timestamps and the gates *)

Lemma secondsElapsed_order (earlier later : OSVR_TimeValue) :
  well_formed_time earlier -> well_formed_time later ->
  ltb zero (secondsElapsed earlier later)
    = (in_microseconds earlier <? in_microseconds later) /\
  leb (secondsElapsed earlier later) zero
    = (in_microseconds later <=? in_microseconds earlier).
Proof.
  intros [Hu1 Hs1] [Hu2 Hs2].
  destruct (secondsElapsed_sign earlier later) as [Hlt Hle].
  - lia.
  - change (2 ^ 63) with (2 * 2 ^ 62). lia.
  - cbv zeta in Hlt, Hle. rewrite Hlt, Hle. unfold in_microseconds. split.
    + destruct (Z.ltb_spec 0 ((seconds later - seconds earlier) * 1000000
                               + (microseconds later - microseconds earlier))),
        (Z.ltb_spec (seconds earlier * 1000000 + microseconds earlier)
                    (seconds later * 1000000 + microseconds later));
        (reflexivity || lia).
    + destruct (Z.leb_spec ((seconds later - seconds earlier) * 1000000
                             + (microseconds later - microseconds earlier)) 0),
        (Z.leb_spec (seconds later * 1000000 + microseconds later)
                    (seconds earlier * 1000000 + microseconds earlier));
        (reflexivity || lia).
Qed.

(** X9. For well-formed timestamps the elapsed time computed in double
    precision has the sign of the exact difference: it is positive exactly
    when the later timestamp is strictly after the earlier one, and it
    passes the test [dt <= 0] exactly when it is not; the two tests never
    agree, so the result is never a NaN. *)
Theorem elapsed_time_follows_timestamp_order :
  forall earlier later : OSVR_TimeValue,
    well_formed_time earlier -> well_formed_time later ->
    ltb zero (secondsElapsed earlier later)
      = (in_microseconds earlier <? in_microseconds later) /\
    leb (secondsElapsed earlier later) zero
      = (in_microseconds later <=? in_microseconds earlier) /\
    leb (secondsElapsed earlier later) zero
      = negb (ltb zero (secondsElapsed earlier later)) /\
    secondsElapsed earlier later <> S754_nan.
Proof.
  intros earlier later H1 H2.
  destruct (secondsElapsed_order earlier later H1 H2) as [Hlt Hle].
  split; [exact Hlt|]. split; [exact Hle|]. split.
  - rewrite Hlt, Hle.
    destruct (Z.leb_spec (in_microseconds later) (in_microseconds earlier)),
      (Z.ltb_spec (in_microseconds earlier) (in_microseconds later));
      (reflexivity || lia).
  - intros Hnan. rewrite Hnan in Hlt, Hle.
    change (ltb zero S754_nan) with false in Hlt.
    change (leb S754_nan zero) with false in Hle.
    symmetry in Hlt, Hle. apply Z.ltb_ge in Hlt. apply Z.leb_gt in Hle. lia.
Qed.

Lemma later_passes_gate (lst ts : OSVR_TimeValue) :
  well_formed_time lst -> well_formed_time ts ->
  in_microseconds lst < in_microseconds ts ->
  leb (secondsElapsed lst ts) zero = false.
Proof.
  intros H1 H2 Hlt. rewrite (proj2 (secondsElapsed_order lst ts H1 H2)).
  apply Z.leb_gt. exact Hlt.
Qed.

Lemma not_later_stopped (lst ts : OSVR_TimeValue) :
  well_formed_time lst -> well_formed_time ts ->
  in_microseconds ts <= in_microseconds lst ->
  leb (secondsElapsed lst ts) zero = true.
Proof.
  intros H1 H2 Hle. rewrite (proj2 (secondsElapsed_order lst ts H1 H2)).
  apply Z.leb_le. exact Hle.
Qed.

(** X10. With well-formed timestamps the gates decide by the order of the
    timestamps: a report strictly later than the last accepted report of
    its sensor is taken into the filter (prediction over the elapsed time,
    then correction), and a report at or before it leaves the filter and
    the last-seen timestamp alone. *)
Theorem gates_follow_timestamp_order :
  forall (rd : RunningData) (ts : OSVR_TimeValue)
         (imu : OSVR_OrientationReport) (video : OSVR_PoseReport),
    well_formed_time ts ->
    well_formed_time (m_lastIMU rd) ->
    well_formed_time (m_lastPosition rd) ->
    (in_microseconds (m_lastIMU rd) < in_microseconds ts ->
     handleIMUReport ts imu rd = fuseOrientation ts imu rd) /\
    (in_microseconds ts <= in_microseconds (m_lastIMU rd) ->
     m_filter (handleIMUReport ts imu rd) = m_filter rd /\
     m_lastIMU (handleIMUReport ts imu rd) = m_lastIMU rd) /\
    (in_microseconds (m_lastPosition rd) < in_microseconds ts ->
     handleVideoTrackerReport ts video rd = fusePose ts video rd) /\
    (in_microseconds ts <= in_microseconds (m_lastPosition rd) ->
     m_filter (handleVideoTrackerReport ts video rd) = m_filter rd /\
     m_lastPosition (handleVideoTrackerReport ts video rd)
       = m_lastPosition rd).
Proof.
  intros rd ts imu video Hts Hi Hp.
  split; [|split; [|split]]; intros H.
  - apply handleIMUReport_accept. now apply later_passes_gate.
  - rewrite handleIMUReport_skip by now apply not_later_stopped.
    now split.
  - apply handleVideoTrackerReport_accept. now apply later_passes_gate.
  - rewrite handleVideoTrackerReport_skip by now apply not_later_stopped.
    now split.
Qed.

(** X11. No report is lost to the other sensor: when every report of a
    stream is strictly later than the previous report of its own sensor,
    however the two sensors interleave, the Running controller takes every
    one of them into the filter, and ends with the running data obtained
    by predicting and correcting once per report. *)
Theorem advancing_streams_lose_no_report :
  forall (ds : list Delivery) (c : VideoIMUFusion) (rd : RunningData),
    m_state c = Running ->
    m_runningData c = Some rd ->
    well_formed_time (m_lastIMU rd) ->
    well_formed_time (m_lastPosition rd) ->
    each_sensor_advances (m_lastIMU rd) (m_lastPosition rd) ds ->
    exists c' out,
      run ndebug ds c = Done (c', out) /\
      m_state c' = Running /\
      m_runningData c' = Some (fuse_every_report ds rd).
Proof.
  induction ds as [|d ds IH]; intros c rd Hs Hrd Hi Hp Hadv.
  - exists c, []. now repeat split.
  - destruct d as [ifs [ts r | ts r]]; cbn [each_sensor_advances snd] in Hadv;
      destruct Hadv as [Hts [Hlt Hrest]].
    + pose proof (handleIMUData_running ts r c rd Hs Hrd) as Hd.
      rewrite (handleIMUReport_accept ts r rd
                 (later_passes_gate _ _ Hi Hts Hlt)) in Hd.
      fold (fuseOrientation ts r rd) in Hd.
      destruct (IH (withRunningData (fuseOrientation ts r rd) c)
                  (fuseOrientation ts r rd) Hs eq_refl Hts Hp Hrest)
        as [c' [out [Hr [Hs' Hrd']]]].
      eexists c', _. simpl run. unfold deliver. cbn [snd fst].
      rewrite Hd. cbn [bind fst snd]. rewrite Hr. cbn [bind fst snd].
      split; [reflexivity|]. split; [exact Hs' | exact Hrd'].
    + pose proof (handleVideoTrackerData_running ifs ts r c rd Hs Hrd) as Hd.
      rewrite (handleVideoTrackerReport_accept ts r rd
                 (later_passes_gate _ _ Hp Hts Hlt)) in Hd.
      fold (takeCameraPoseToRoom (rd_cTr rd) (pr_pose r)) in Hd.
      fold (fusePose ts r rd) in Hd.
      destruct (IH (withRunningData (fusePose ts r rd) c)
                  (fusePose ts r rd) Hs eq_refl Hi Hts Hrest)
        as [c' [out [Hr [Hs' Hrd']]]].
      eexists c', _. simpl run. unfold deliver. cbn [snd fst].
      rewrite Hd. cbn [bind fst snd]. rewrite Hr. cbn [bind fst snd].
      split; [reflexivity|]. split; [exact Hs' | exact Hrd'].
Qed.

(** X12. The last-seen timestamps never go back.  Over any stream of
    reports with well-formed timestamps, in any order, each of the two
    last-seen timestamps of the running data ends at or after the point
    where it started, and stays well-formed. *)
Theorem last_seen_never_goes_back :
  forall (ds : list Delivery) (c : VideoIMUFusion) (rd : RunningData),
    m_state c = Running ->
    m_runningData c = Some rd ->
    well_formed_time (m_lastIMU rd) ->
    well_formed_time (m_lastPosition rd) ->
    Forall (fun d => well_formed_time (report_timestamp (snd d))) ds ->
    exists c' out rd',
      run ndebug ds c = Done (c', out) /\
      m_runningData c' = Some rd' /\
      in_microseconds (m_lastIMU rd) <= in_microseconds (m_lastIMU rd') /\
      in_microseconds (m_lastPosition rd)
        <= in_microseconds (m_lastPosition rd') /\
      well_formed_time (m_lastIMU rd') /\
      well_formed_time (m_lastPosition rd').
Proof.
  induction ds as [|d ds IH]; intros c rd Hs Hrd Hi Hp Hwf.
  - exists c, [], rd. split; [reflexivity|]. split; [exact Hrd|].
    split; [lia|]. split; [lia|]. split; assumption.
  - inversion Hwf as [|d' ds' Hts Hrest]; subst.
    destruct d as [ifs [ts r | ts r]]; cbn [snd report_timestamp] in Hts.
    + pose proof (handleIMUData_running ts r c rd Hs Hrd) as Hd.
      set (rd1 := handleIMUReport ts r rd) in *.
      assert (Hl : m_lastIMU rd1
                   = if leb (secondsElapsed (m_lastIMU rd) ts) zero
                     then m_lastIMU rd else ts)
        by apply handleIMUReport_lastIMU.
      destruct (handleIMUReport_frame ts r rd) as [Hf _]. fold rd1 in Hf.
      rewrite (proj2 (secondsElapsed_order _ _ Hi Hts)) in Hl.
      assert (Hstep : in_microseconds (m_lastIMU rd)
                        <= in_microseconds (m_lastIMU rd1) /\
                      well_formed_time (m_lastIMU rd1)).
      { rewrite Hl.
        destruct (Z.leb_spec (in_microseconds ts)
                    (in_microseconds (m_lastIMU rd))); split;
          (assumption || lia). }
      destruct Hstep as [Hmono Hwf1].
      destruct (IH (withRunningData rd1 c) rd1 Hs eq_refl Hwf1)
        as [c' [out [rd' [Hr [Hrd' [M1 [M2 [W1 W2]]]]]]]];
        [rewrite Hf; exact Hp | exact Hrest |].
      eexists c', _, rd'. simpl run. unfold deliver. cbn [snd fst].
      rewrite Hd. cbn [bind fst snd]. rewrite Hr. cbn [bind fst snd].
      split; [reflexivity|]. split; [exact Hrd'|].
      rewrite Hf in M2. split; [lia|]. split; [lia|]. split; assumption.
    + pose proof (handleVideoTrackerData_running ifs ts r c rd Hs Hrd) as Hd.
      set (rd1 := handleVideoTrackerReport ts r rd) in *.
      assert (Hl : m_lastPosition rd1
                   = if leb (secondsElapsed (m_lastPosition rd) ts) zero
                     then m_lastPosition rd else ts)
        by apply handleVideoTrackerReport_lastPosition.
      destruct (handleVideoTrackerReport_frame ts r rd) as [Hf _].
      fold rd1 in Hf.
      rewrite (proj2 (secondsElapsed_order _ _ Hp Hts)) in Hl.
      assert (Hstep : in_microseconds (m_lastPosition rd)
                        <= in_microseconds (m_lastPosition rd1) /\
                      well_formed_time (m_lastPosition rd1)).
      { rewrite Hl.
        destruct (Z.leb_spec (in_microseconds ts)
                    (in_microseconds (m_lastPosition rd))); split;
          (assumption || lia). }
      destruct Hstep as [Hmono Hwf1].
      destruct (IH (withRunningData rd1 c) rd1 Hs eq_refl)
        as [c' [out [rd' [Hr [Hrd' [M1 [M2 [W1 W2]]]]]]]];
        [rewrite Hf; exact Hi | exact Hwf1 | exact Hrest |].
      eexists c', _, rd'. simpl run. unfold deliver. cbn [snd fst].
      rewrite Hd. cbn [bind fst snd]. rewrite Hr. cbn [bind fst snd].
      split; [reflexivity|]. split; [exact Hrd'|].
      rewrite Hf in M1. split; [lia|]. split; [lia|]. split; assumption.
Qed.

End Properties.

(** * Concrete runs *)

Import Sample.

(** C4 at the calibrated controller, whose last orientation is of second
    100 and whose last pose is of second 110.  A report of second 105 is
    positive for the IMU and non-positive for the video tracker; an
    orientation report of second 100 is skipped, and so is its twin pose
    report, while reports of second 111 pass both gates. *)
Lemma running_report_gate_witness :
  (m_state calibrated = Running /\
   m_runningData calibrated = Some calibratedData) /\
  (exists rd' out,
      handleIMUData (at_time 105 0) imuReport calibrated
        = Done (withRunningData rd' calibrated, out) /\
      m_lastIMU rd' = at_time 105 0 /\
      m_filter rd' =
        correctOrientation
          (mkOriMeas identityQuat (asDiagonal (m_imuError calibratedData)))
          (predict (of_Z 5) (m_filter calibratedData))) /\
  (exists rd' out,
      handleVideoTrackerData false
        (bothAvailable (at_time 100 0) (at_time 105 0))
        (at_time 105 0) poseReport calibrated
        = Done (withRunningData rd' calibrated, out) /\
      m_lastPosition rd' = at_time 110 0 /\
      m_filter rd' = m_filter calibratedData) /\
  (exists rd' out,
      handleIMUData (at_time 100 0) imuReport calibrated
        = Done (withRunningData rd' calibrated, out) /\
      m_lastIMU rd' = at_time 100 0 /\
      m_filter rd' = m_filter calibratedData) /\
  (exists rd' out,
      handleVideoTrackerData false
        (bothAvailable (at_time 100 0) (at_time 111 0))
        (at_time 111 0) poseReport calibrated
        = Done (withRunningData rd' calibrated, out) /\
      m_lastPosition rd' = at_time 111 0).
Proof.
  split; [split; reflexivity|].
  destruct (running_report_gate false calibrated calibratedData
              (bothAvailable (at_time 100 0) (at_time 105 0))
              (at_time 105 0) imuReport poseReport eq_refl eq_refl)
    as [[rd1 [o1 [H1 [_ A1]]]] [rd2 [o2 [H2 [S2 _]]]]].
  destruct (running_report_gate false calibrated calibratedData
              (bothAvailable (at_time 100 0) (at_time 111 0))
              (at_time 100 0) imuReport poseReport eq_refl eq_refl)
    as [[rd3 [o3 [H3 [S3 _]]]] _].
  destruct (running_report_gate false calibrated calibratedData
              (bothAvailable (at_time 100 0) (at_time 111 0))
              (at_time 111 0) imuReport poseReport eq_refl eq_refl)
    as [_ [rd4 [o4 [H4 [_ A4]]]]].
  split; [|split; [|split]].
  - exists rd1, o1. split; [exact H1|].
    destruct (A1 eq_refl) as [Hf Hl]. split; [exact Hl | exact Hf].
  - exists rd2, o2. split; [exact H2|].
    destruct (S2 eq_refl) as [Hf Hl]. split; [exact Hl | exact Hf].
  - exists rd3, o3. split; [exact H3|].
    destruct (S3 eq_refl) as [Hf Hl]. split; [exact Hl | exact Hf].
  - exists rd4, o4. split; [exact H4|].
    destruct (A4 eq_refl) as [_ Hl]. exact Hl.
Defined.

(** C2 at the calibrated controller: a pose report of second 111 sends one
    fused pose of that second on the primary channel. *)
Lemma fused_pose_once_per_report_witness :
  (m_state calibrated = Running /\
   m_runningData calibrated = Some calibratedData) /\
  exists rd' out,
    handleVideoTrackerData false
      (bothAvailable (at_time 100 0) (at_time 111 0))
      (at_time 111 0) poseReport calibrated
      = Done (withRunningData rd' calibrated, out) /\
    length out = 2%nat /\
    on_primary_channel out
      = [mkEmission
           (mkPose3 (getPosition (state (m_filter rd')))
                    (toQuat (getQuaternion (state (m_filter rd')))))
           FUSED_SENSOR_ID (at_time 111 0)].
Proof.
  split; [split; reflexivity|].
  destruct (fused_pose_once_per_report false calibrated calibratedData
              (bothAvailable (at_time 100 0) (at_time 111 0))
              (at_time 111 0) imuReport poseReport eq_refl eq_refl)
    as [_ [rd' [out [H1 [H2 _]]]]].
  exists rd', out. split; [exact H1|]. split; [|exact H2].
  unfold handleVideoTrackerData in H1. simpl in H1.
  injection H1 as _ <-. reflexivity.
Defined.

(** C2 as stated fails: the orientation report of second 100 repeats the
    timestamp of the last accepted orientation, so its elapsed time is
    zero and it is skipped, and yet a fused pose of that timestamp goes
    out on the primary channel, carrying the pose of the untouched
    filter. *)
Lemma skipped_report_still_emits :
  leb (secondsElapsed (m_lastIMU calibratedData) (at_time 100 0)) zero = true /\
  exists rd',
    handleIMUData (at_time 100 0) imuReport calibrated
      = Done (withRunningData rd' calibrated,
              [mkEmission (fusedPose calibratedData) FUSED_SENSOR_ID
                 (at_time 100 0)]) /\
    m_filter rd' = m_filter calibratedData /\
    m_lastIMU rd' = m_lastIMU calibratedData.
Proof.
  split; [reflexivity|].
  exists (handleIMUReport (at_time 100 0) imuReport calibratedData).
  repeat split.
Qed.

(** C10 at the fresh controller. *)
Lemma imu_report_ignored_until_running_witness :
  m_state fresh <> Running /\
  handleIMUData (at_time 101 0) imuReport fresh = Done (fresh, []) /\
  run false
    ((noOrientationYet (at_time 101 0), IMUReport (at_time 101 0) imuReport)
       :: poseReports 100 10) fresh
    = run false (poseReports 100 10) fresh.
Proof.
  assert (H : m_state fresh <> Running) by discriminate.
  split; [exact H|].
  exact (imu_report_ignored_until_running false fresh
           (noOrientationYet (at_time 101 0)) (at_time 101 0) imuReport
           (poseReports 100 10) H).
Defined.

(** C8 at the fresh controller. *)
Lemma pose_report_without_orientation_dropped_witness :
  (m_state fresh = AcquiringCameraPose /\
   imu_state (noOrientationYet (at_time 101 0)) = None) /\
  handleVideoTrackerData false (noOrientationYet (at_time 101 0))
    (at_time 101 0) poseReport fresh = Done (fresh, []).
Proof.
  split; [split; reflexivity|].
  exact (pose_report_without_orientation_dropped false fresh
           (noOrientationYet (at_time 101 0)) (at_time 101 0) poseReport
           eq_refl eq_refl).
Defined.

(** C6 at the fresh controller: the pose report of second 101 is the first
    accepted sample. *)
Lemma accepted_pose_report_accumulates_witness :
  (m_state fresh = AcquiringCameraPose /\
   m_startupData fresh = Some freshData /\
   imu_state (bothAvailable (at_time 100 0) (at_time 101 0))
     = Some (at_time 100 0, identityQuat) /\
   0 <= reports freshData < REQUIRED_SAMPLES) /\
  exists sd',
    handleVideoTrackerData false
      (bothAvailable (at_time 100 0) (at_time 101 0))
      (at_time 101 0) poseReport fresh
      = Done (withStartupData sd' fresh, []) /\
    reports sd' = 1 /\
    last sd' = at_time 101 0 /\
    positionFilter sd' = [(one, mkVec3 one zero zero)] /\
    orientationFilter sd' = [(one, identityQuat)].
Proof.
  assert (Hn : 0 <= reports freshData < REQUIRED_SAMPLES)
    by (split; [apply Z.le_refl | reflexivity]).
  split; [split; [|split; [|split]]; [reflexivity .. | exact Hn]|].
  destruct (accepted_pose_report_accumulates false fresh freshData
              (bothAvailable (at_time 100 0) (at_time 101 0))
              (at_time 101 0) (at_time 100 0) identityQuat poseReport
              eq_refl eq_refl eq_refl Hn)
    as [Hp [Ho [Hr [Hl Hh]]]].
  exists (sd_handleReport (at_time 101 0) poseReport identityQuat freshData).
  split; [exact Hh|]. split; [exact Hr|]. split; [exact Hl|].
  split; [exact Hp | exact Ho].
Defined.

(** C7 on two samples: from the accumulator constructed at second 100, a
    report of second 100.5 is fed with half a second, and a report of
    second 99 with the substitute 1. *)
Lemma accumulator_elapsed_time_witness :
  (ltb zero (secondsElapsed (last freshData) (at_time 100 500000)) = true /\
   leb (secondsElapsed (last freshData) (at_time 99 0)) zero = true) /\
  positionFilter
    (sd_handleReport (at_time 100 500000) poseReport identityQuat freshData)
    = filterVec half (iso_translation (candidate_cTr poseReport identityQuat))
        (positionFilter freshData) /\
  positionFilter
    (sd_handleReport (at_time 99 0) poseReport identityQuat freshData)
    = filterVec one (iso_translation (candidate_cTr poseReport identityQuat))
        (positionFilter freshData) /\
  reports (sd_handleReport (at_time 99 0) poseReport identityQuat freshData)
    = 1.
Proof.
  split; [split; reflexivity|].
  destruct (accumulator_elapsed_time (at_time 100 0) (at_time 100 500000)
              freshData poseReport identityQuat)
    as [_ [_ [_ [_ [_ Hpos]]]]].
  destruct (accumulator_elapsed_time (at_time 100 0) (at_time 99 0)
              freshData poseReport identityQuat)
    as [_ [_ [Hr [_ [Hneg _]]]]].
  split; [exact (proj1 (Hpos eq_refl))|].
  split; [exact (proj1 (Hneg eq_refl)) | exact Hr].
Defined.

(** C7 as stated fails: the first accepted sample of the controller
    constructed at second 100, a report of second 100.5, reaches both
    filters with an elapsed time of 0.5, not 1. *)
Lemma first_sample_not_fed_one :
  exists sd',
    handleVideoTrackerData false
      (bothAvailable (at_time 100 0) (at_time 100 500000))
      (at_time 100 500000) poseReport fresh
      = Done (withStartupData sd' fresh, []) /\
    reports sd' = 1 /\
    map fst (positionFilter sd') = [half] /\
    map fst (orientationFilter sd') = [half] /\
    half <> one.
Proof.
  exists (sd_handleReport (at_time 100 500000) poseReport identityQuat
            freshData).
  repeat split. discriminate.
Qed.

(** C1 at the transition of the sample run: the tenth pose report enters
    the Running state with halved coefficients. *)
Lemma startup_halves_noise_autocorrelation_witness :
  enterRunningState false
    (bothAvailable (at_time 100 0) (at_time 110 0))
    (m_cTr calibrated) almostCalibrated = Done calibrated /\
  exists rd,
    m_runningData calibrated = Some rd /\
    noiseAutocorrelation (processModel (m_filter rd)) = repeat half 6.
Proof.
  assert (H : enterRunningState false
                (bothAvailable (at_time 100 0) (at_time 110 0))
                (m_cTr calibrated) almostCalibrated = Done calibrated)
    by reflexivity.
  split; [exact H|].
  destruct (startup_halves_noise_autocorrelation false (m_cTr calibrated)
              identityQuat trackerPose (at_time 110 0) (at_time 100 0)
              (bothAvailable (at_time 100 0) (at_time 110 0))
              almostCalibrated calibrated)
    as [_ Henter].
  destruct (Henter H) as [rd [Hrd Hnoise]].
  exists rd. split; [exact Hrd | exact Hnoise].
Defined.

(** C1 as stated fails: from default coefficients all equal to 1, the
    constructor leaves coefficients equal to 0.5, where doubling would
    leave 2. *)
Lemma startup_noise_not_doubled :
  noiseAutocorrelation (processModel defaultFilter) = repeat one 6 /\
  noiseAutocorrelation
    (processModel
       (m_filter
          (newRunningData (m_cTr calibrated) identityQuat trackerPose
             (at_time 110 0) (at_time 100 0))))
    = repeat half 6 /\
  repeat half 6 <> map (fun q => mul q two) (repeat one 6).
Proof.
  repeat split. discriminate.
Qed.

(** C5 at the tenth pose report of the sample run: the camera is one unit
    along x from the room origin and sees the device at [(-1, 0, 0)], so
    the filter is seeded at the room origin. *)
Lemma running_filter_seed_witness :
  (m_state almostCalibrated = AcquiringCameraPose /\
   m_startupData almostCalibrated = Some almostCalibratedData /\
   finished (sd_handleReport (at_time 110 0) poseReport identityQuat
               almostCalibratedData) = true) /\
  exists rd,
    handleVideoTrackerData false
      (bothAvailable (at_time 100 0) (at_time 110 0))
      (at_time 110 0) poseReport almostCalibrated
      = Done (mkController Running
                (mkIso identityQuat (mkVec3 one zero zero)) None (Some rd),
              []) /\
    stateVector (state (m_filter rd)) = repeat zero 12 /\
    getQuaternion (state (m_filter rd)) = identityQuat /\
    nth 4 (nth 4 (errorCovariance (state (m_filter rd))) []) zero = one /\
    nth 5 (nth 4 (errorCovariance (state (m_filter rd))) []) zero = zero.
Proof.
  split; [repeat split|].
  destruct (running_filter_seed false almostCalibrated almostCalibratedData
              (bothAvailable (at_time 100 0) (at_time 110 0))
              (at_time 110 0) (at_time 100 0) (at_time 110 0)
              identityQuat trackerPose poseReport
              eq_refl eq_refl eq_refl eq_refl eq_refl)
    as [rd [Hh [Hv [_ [Hq [_ Hd]]]]]].
  exists rd. split; [exact Hh|]. split; [exact Hv|]. split; [exact Hq|].
  split.
  - exact (Hd 4%nat 4%nat (le_n_S _ _ (le_n_S _ _ (le_n_S _ _ (le_n_S _ _
             (le_n_S _ _ (le_0_n 7))))))
             (le_n_S _ _ (le_n_S _ _ (le_n_S _ _ (le_n_S _ _
             (le_n_S _ _ (le_0_n 7))))))).
  - exact (Hd 4%nat 5%nat (le_n_S _ _ (le_n_S _ _ (le_n_S _ _ (le_n_S _ _
             (le_n_S _ _ (le_0_n 7))))))
             (le_n_S _ _ (le_n_S _ _ (le_n_S _ _ (le_n_S _ _
             (le_n_S _ _ (le_n_S _ _ (le_0_n 6)))))))).
Defined.

(** C3 on the sample run: nine accepted pose reports leave the controller
    acquiring with a counter of nine, ten make it Running, and it is still
    Running after ten more. *)
Lemma lifecycle_witness :
  (Forall pose_state_available (poseReports 100 9) /\
   Forall pose_state_available (poseReports 100 10)) /\
  (exists c out sd,
      run false (poseReports 100 9) fresh = Done (c, out) /\
      m_state c = AcquiringCameraPose /\
      m_startupData c = Some sd /\ reports sd = 9) /\
  (exists c out c' out',
      run false (poseReports 100 10) fresh = Done (c, out) /\
      m_state c = Running /\
      run false (poseReports 110 10) c = Done (c', out') /\
      m_state c' = Running).
Proof.
  assert (H9 : Forall pose_state_available (poseReports 100 9))
    by (repeat constructor; discriminate).
  assert (H10 : Forall pose_state_available (poseReports 100 10))
    by (repeat constructor; discriminate).
  split; [split; [exact H9 | exact H10]|].
  split.
  - destruct (lifecycle false (at_time 100 0) AcquiringCameraPose
                unsetTransform
                (poseReports 100 9) [] H9)
      as [_ [c [out [Hr [Hiff [Hacq _]]]]]].
    assert (Hs : m_state c = AcquiringCameraPose).
    { destruct (m_state c); [reflexivity|].
      exfalso. apply (proj1 Hiff eq_refl). reflexivity. }
    destruct (Hacq Hs) as [sd [Hsd Hn]].
    exists c, out, sd. repeat split; assumption.
  - destruct (lifecycle false (at_time 100 0) AcquiringCameraPose
                unsetTransform
                (poseReports 100 10) (poseReports 110 10) H10)
      as [_ [c [out [Hr [Hiff [_ Hrun]]]]]].
    assert (Hs : m_state c = Running).
    { apply (proj2 Hiff). intros H. discriminate H. }
    destruct (Hrun Hs) as [c' [out' [Hr' Hs']]].
    exists c, out, c', out'. repeat split; assumption.
Defined.

(** C9 on the sample runs: the accumulator alone after nine accepted
    samples, the running data alone after ten. *)
Lemma one_payload_between_callbacks_witness :
  (m_startupData almostCalibrated <> None /\
   m_runningData almostCalibrated = None) /\
  (m_startupData calibrated = None /\ m_runningData calibrated <> None).
Proof.
  pose proof (one_payload_between_callbacks false (at_time 100 0)
                AcquiringCameraPose
                unsetTransform
                (poseReports 100 9)) as H9.
  pose proof (one_payload_between_callbacks false (at_time 100 0)
                AcquiringCameraPose
                unsetTransform
                (poseReports 100 10)) as H10.
  split; [exact H9 | exact H10].
Defined.

(** ** Concrete runs of the further properties *)


(** X4 on the mixed stream: the second channel carries the one pose
    report, taken to the room: the device seen at [(-1, 0, 0)] by a
    camera at [(1, 0, 0)] is at the origin. *)
Lemma running_stream_reoriented_video_witness :
  (m_state calibrated = Running /\
   m_runningData calibrated = Some calibratedData) /\
  exists c' out rd',
    run false mixedReports calibrated = Done (c', out) /\
    m_runningData c' = Some rd' /\
    on_debug_channel out
      = [mkEmission
           (mkPose3 (mkVec3 (add one (SFopp one)) zero zero) identityQuat)
           TRANSFORMED_VIDEO_SENSOR_ID (at_time 111 0)] /\
    rd_cTr rd' = rd_cTr calibratedData /\
    m_cTr c' = m_cTr calibrated.
Proof.
  split; [split; reflexivity|].
  destruct (running_stream_reoriented_video false mixedReports
              calibrated calibratedData eq_refl eq_refl)
    as [c' [out [rd' [Hr [Hrd [Hd [Hc Hm]]]]]]].
  exists c', out, rd'. split; [exact Hr|]. split; [exact Hrd|].
  split; [exact Hd|]. split; [exact Hc | exact Hm].
Defined.

(** X5 on the sample calibration: nine accepted pose reports send
    nothing, and neither does the tenth. *)
Lemma nothing_sent_until_running_witness :
  accepted (poseReports 100 9) < REQUIRED_SAMPLES /\
  (exists c,
      run false (poseReports 100 9) fresh = Done (c, []) /\
      m_state c = AcquiringCameraPose) /\
  match run false (poseReports 100 9 ++ [tenthReport]) fresh with
  | Done (c, out) => c = calibrated /\ out = []
  | _ => False
  end.
Proof.
  assert (H : accepted (poseReports 100 9) < REQUIRED_SAMPLES)
    by reflexivity.
  split; [exact H|].
  destruct (nothing_sent_until_running false (at_time 100 0)
              AcquiringCameraPose unsetTransform (poseReports 100 9)
              tenthReport H) as [Hq Hm].
  split; [exact Hq|].
  change (newVideoIMUFusion (at_time 100 0) AcquiringCameraPose
            unsetTransform) with fresh in Hm.
  assert (Hr : run false (poseReports 100 9 ++ [tenthReport]) fresh
               = Done (calibrated, snd (calibrated, @nil PoseEmission)))
    by reflexivity.
  rewrite Hr in Hm. rewrite Hr. split; [reflexivity | exact Hm].
Defined.

(** X6 at the tenth sample when the video interface holds no pose: a
    build with assertions stops, a build without them enters the Running
    state with the last pose timestamp at zero. *)
Lemma calibration_completion_outcomes_witness :
  (m_state almostCalibrated = AcquiringCameraPose /\
   m_startupData almostCalibrated = Some almostCalibratedData /\
   finished (sd_handleReport (at_time 110 0) poseReport identityQuat
               almostCalibratedData) = true) /\
  handleVideoTrackerData false (noPoseYet (at_time 100 0))
    (at_time 110 0) poseReport almostCalibrated = AssertionFailed /\
  exists c rd,
    handleVideoTrackerData true (noPoseYet (at_time 100 0))
      (at_time 110 0) poseReport almostCalibrated = Done (c, []) /\
    m_state c = Running /\
    m_runningData c = Some rd /\
    m_lastPosition rd = zeroTimeValue /\
    m_lastIMU rd = at_time 100 0.
Proof.
  split; [repeat split|].
  split.
  - exact (calibration_completion_outcomes false almostCalibrated
             almostCalibratedData (noPoseYet (at_time 100 0))
             (at_time 110 0) (at_time 100 0) identityQuat poseReport
             eq_refl eq_refl eq_refl eq_refl).
  - pose proof (calibration_completion_outcomes true almostCalibrated
                  almostCalibratedData (noPoseYet (at_time 100 0))
                  (at_time 110 0) (at_time 100 0) identityQuat poseReport
                  eq_refl eq_refl eq_refl eq_refl) as H.
    cbv zeta in H. cbn [video_state noPoseYet] in H.
    eexists _, _. split; [exact H|]. repeat split.
Defined.

(** X9 across a second boundary: from 100.9 s to 101.1 s the elapsed
    time is positive, and the other way round it is not. *)
Lemma elapsed_time_follows_timestamp_order_witness :
  (well_formed_time (at_time 100 900000) /\
   well_formed_time (at_time 101 100000)) /\
  ltb zero (secondsElapsed (at_time 100 900000) (at_time 101 100000)) = true /\
  leb (secondsElapsed (at_time 101 100000) (at_time 100 900000)) zero = true.
Proof.
  assert (H1 : well_formed_time (at_time 100 900000)) by time_facts.
  assert (H2 : well_formed_time (at_time 101 100000)) by time_facts.
  split; [split; assumption|].
  destruct (elapsed_time_follows_timestamp_order _ _ H1 H2) as [Hlt _].
  destruct (elapsed_time_follows_timestamp_order _ _ H2 H1) as [_ [Hle _]].
  split; [rewrite Hlt | rewrite Hle]; reflexivity.
Defined.

(** X10 at the calibrated running data (last orientation of second 100,
    last pose of second 110) for reports of second 105: the orientation
    is taken in, the pose is left out. *)
Lemma gates_follow_timestamp_order_witness :
  (well_formed_time (at_time 105 0) /\
   well_formed_time (m_lastIMU calibratedData) /\
   well_formed_time (m_lastPosition calibratedData) /\
   in_microseconds (m_lastIMU calibratedData) < in_microseconds (at_time 105 0) /\
   in_microseconds (at_time 105 0)
     <= in_microseconds (m_lastPosition calibratedData)) /\
  handleIMUReport (at_time 105 0) imuReport calibratedData
    = fuseOrientation (at_time 105 0) imuReport calibratedData /\
  m_filter (handleVideoTrackerReport (at_time 105 0) poseReport calibratedData)
    = m_filter calibratedData.
Proof.
  assert (H1 : well_formed_time (at_time 105 0)) by time_facts.
  assert (H2 : well_formed_time (m_lastIMU calibratedData)) by time_facts.
  assert (H3 : well_formed_time (m_lastPosition calibratedData))
    by time_facts.
  assert (H4 : in_microseconds (m_lastIMU calibratedData)
               < in_microseconds (at_time 105 0)) by reflexivity.
  assert (H5 : in_microseconds (at_time 105 0)
               <= in_microseconds (m_lastPosition calibratedData))
    by time_facts.
  split; [split; [exact H1 | split; [exact H2 | split; [exact H3 |
          split; [exact H4 | exact H5]]]]|].
  destruct (gates_follow_timestamp_order calibratedData (at_time 105 0)
              imuReport poseReport H1 H2 H3) as [Ha [_ [_ Hs]]].
  split; [exact (Ha H4) | exact (proj1 (Hs H5))].
Defined.

(** X11 on the advancing stream: all three reports are taken in. *)
Lemma advancing_streams_lose_no_report_witness :
  (m_state calibrated = Running /\
   m_runningData calibrated = Some calibratedData /\
   each_sensor_advances (m_lastIMU calibratedData)
     (m_lastPosition calibratedData) advancingReports) /\
  exists c' out rd',
    run false advancingReports calibrated = Done (c', out) /\
    m_runningData c' = Some rd' /\
    rd' = fuse_every_report advancingReports calibratedData /\
    m_lastIMU rd' = at_time 105 500000 /\
    m_lastPosition rd' = at_time 111 0.
Proof.
  assert (H2 : well_formed_time (m_lastIMU calibratedData)) by time_facts.
  assert (H3 : well_formed_time (m_lastPosition calibratedData))
    by time_facts.
  assert (H4 : each_sensor_advances (m_lastIMU calibratedData)
                 (m_lastPosition calibratedData) advancingReports)
    by time_facts.
  split; [split; [reflexivity | split; [reflexivity | exact H4]]|].
  destruct (advancing_streams_lose_no_report false advancingReports
              calibrated calibratedData eq_refl eq_refl H2 H3 H4)
    as [c' [out [Hr [_ Hrd]]]].
  exists c', out, (fuse_every_report advancingReports calibratedData).
  split; [exact Hr|]. split; [exact Hrd|]. repeat split.
Defined.

(** X12 on the mixed stream: after the late orientation report of second
    100 the last-seen orientation is still of second 105. *)
Lemma last_seen_never_goes_back_witness :
  (m_state calibrated = Running /\
   m_runningData calibrated = Some calibratedData /\
   Forall (fun d => well_formed_time (report_timestamp (snd d)))
     mixedReports) /\
  exists c' out rd',
    run false mixedReports calibrated = Done (c', out) /\
    m_runningData c' = Some rd' /\
    in_microseconds (m_lastIMU calibratedData)
      <= in_microseconds (m_lastIMU rd') /\
    in_microseconds (m_lastPosition calibratedData)
      <= in_microseconds (m_lastPosition rd').
Proof.
  assert (H2 : well_formed_time (m_lastIMU calibratedData)) by time_facts.
  assert (H3 : well_formed_time (m_lastPosition calibratedData))
    by time_facts.
  assert (H4 : Forall (fun d => well_formed_time (report_timestamp (snd d)))
                 mixedReports)
    by (repeat constructor; (reflexivity
                             || (let H := fresh in intro H; discriminate H))).
  split; [split; [reflexivity | split; [reflexivity | exact H4]]|].
  destruct (last_seen_never_goes_back false mixedReports calibrated
              calibratedData eq_refl eq_refl H2 H3 H4)
    as [c' [out [rd' [Hr [Hrd [M1 [M2 _]]]]]]].
  exists c', out, rd'. split; [exact Hr|]. split; [exact Hrd|].
  split; [exact M1 | exact M2].
Defined.
